(** * WooCommerce website analyzer: a shallow embedding

    This development embeds [Scripts/extract_woo_plugins_from_website.py]
    (class [WooCommerceAnalyzer] and its crawl driver, detectors and report
    generator) and settles properties of the crawl budget, the visited set,
    theme derivation, link extraction, detector independence and the report.

    Conventions.
    - A Python [str] is a [string] (a sequence of bytes); the text handled is
      taken to be ASCII, so [len], slicing and [lower] agree with Python's.
    - A Python [set] is a [gset]; the order in which Python iterates over a
      set is not determined by its contents, so it is a parameter of the
      model ([PyRuntime], field [set_iter]).
    - [self] is the record [analyzer]; every method is a function that takes
      the analyzer and returns the updated one.
    - The network is a parameter of a run: the answer to the [k]-th HTTP
      request for a URL. *)

From Stdlib Require Import Ascii String ZArith Lia.
From stdpp Require Import gmap strings list pretty sorting.

Open Scope string_scope.
Open Scope list_scope.

Set Warnings "-register-all,-clear-no-such-hyp".

(** ** Python string methods *)

Module Py.

(** [s.startswith(p)] *)
Definition startswith (s p : string) : bool := String.prefix p s.

(** [sub in s] *)
Fixpoint contains (sub s : string) : bool :=
  if String.prefix sub s then true
  else match s with
       | EmptyString => false
       | String _ s' => contains sub s'
       end.

(** [s.replace(old, new)] for a non-empty [old] (all call sites pass a
    literal): left to right, occurrences do not overlap.  [skip] counts the
    characters of a matched occurrence still to be dropped. *)
Fixpoint replace_from (old new : string) (skip : nat) (s : string) : string :=
  match s with
  | EmptyString => EmptyString
  | String c s' =>
      match skip with
      | S k => replace_from old new k s'
      | O =>
          if String.prefix old s
          then new +:+ replace_from old new (String.length old - 1) s'
          else String c (replace_from old new 0 s')
      end
  end.

Definition replace (s old new : string) : string := replace_from old new 0 s.

Definition lower_ascii (c : ascii) : ascii :=
  let n := nat_of_ascii c in
  if (65 <=? n)%nat && (n <=? 90)%nat then ascii_of_nat (n + 32) else c.

(** [s.lower()] *)
Fixpoint lower (s : string) : string :=
  match s with
  | EmptyString => EmptyString
  | String c s' => String (lower_ascii c) (lower s')
  end.

(** The ASCII characters [str.strip] removes. *)
Definition is_space (c : ascii) : bool :=
  let n := nat_of_ascii c in
  ((9 <=? n)%nat && (n <=? 13)%nat) || ((28 <=? n)%nat && (n <=? 32)%nat).

Fixpoint lstrip (s : string) : string :=
  match s with
  | EmptyString => EmptyString
  | String c s' => if is_space c then lstrip s' else s
  end.

(** [rstrip] keeps a character when it is not a space or something that is
    kept follows it. *)
Fixpoint rstrip (s : string) : string :=
  match s with
  | EmptyString => EmptyString
  | String c s' =>
      match rstrip s' with
      | EmptyString => if is_space c then EmptyString else String c EmptyString
      | r => String c r
      end
  end.

(** [s.strip()] *)
Definition strip (s : string) : string := rstrip (lstrip s).

(** [s[:n]] for a literal [n >= 0] *)
Definition slice_to (n : nat) (s : string) : string := String.substring 0 n s.

(** [len(s)] *)
Definition len (s : string) : nat := String.length s.

(** [l[:k]] on a list, for any integer [k]: a negative [k] counts from the
    end. *)
Definition list_slice_to {A} (k : Z) (l : list A) : list A :=
  if (0 <=? k)%Z then take (Z.to_nat k) l
  else take (length l - Z.to_nat (- k)) l.

(** [str(n)] for an integer. *)
Definition str_of_Z (n : Z) : string := pretty n.

End Py.

(** ** The fragment of Python's [re] the analyzer uses

    A backtracking matcher in continuation-passing style: alternatives are
    tried in Python's order (greedy repetition takes as much as it can first,
    lazy repetition as little), and the first way to complete the whole
    match wins. *)

Module Re.

Inductive regex : Type :=
  | Chr (p : ascii → bool)          (* one character of a class *)
  | Eps                              (* the empty pattern *)
  | Seq (r1 r2 : regex)
  | Alt (r1 r2 : regex)              (* [r1|r2], also [r?] as [Alt r Eps] *)
  | Star (r : regex)                 (* [r*], greedy *)
  | LazyStar (r : regex)             (* [r*?] *)
  | Group (i : nat) (r : regex)      (* the [i]-th capturing group *)
  | Eol.                             (* [$] *)

Definition captures : Type := list (nat * string).

Definition group (c : captures) (i : nat) : string :=
  match list_find (λ p, p.1 = i) c with
  | Some (_, (_, s)) => s
  | None => ""
  end.

(** What was consumed between [s] and its suffix [s']. *)
Definition consumed (s s' : string) : string :=
  String.substring 0 (String.length s - String.length s') s.

Section matcher.
Context {R : Type}.

Fixpoint rmatch (r : regex) (s : string) (c : captures)
    (k : string → captures → option R) {struct r} : option R :=
  match r with
  | Chr p =>
      match s with
      | String a s' => if p a then k s' c else None
      | EmptyString => None
      end
  | Eps => k s c
  | Seq r1 r2 => rmatch r1 s c (λ s' c', rmatch r2 s' c' k)
  | Alt r1 r2 =>
      match rmatch r1 s c k with
      | Some x => Some x
      | None => rmatch r2 s c k
      end
  | Star r1 =>
      (fix loop (n : nat) (s : string) (c : captures) {struct n} : option R :=
         match n with
         | O => k s c
         | S n' =>
             match rmatch r1 s c
                     (λ s' c', if (String.length s' <? String.length s)%nat
                               then loop n' s' c' else None) with
             | Some x => Some x
             | None => k s c
             end
         end) (String.length s) s c
  | LazyStar r1 =>
      (fix loop (n : nat) (s : string) (c : captures) {struct n} : option R :=
         match k s c with
         | Some x => Some x
         | None =>
             match n with
             | O => None
             | S n' =>
                 rmatch r1 s c
                   (λ s' c', if (String.length s' <? String.length s)%nat
                             then loop n' s' c' else None)
             end
         end) (String.length s) s c
  | Group i r1 => rmatch r1 s c (λ s' c', k s' ((i, consumed s s') :: c'))
  | Eol =>
      match s with
      | EmptyString => k s c
      | String a EmptyString =>
          if Ascii.eqb a "010"%char then k s c else None
      | _ => None
      end
  end.
End matcher.

(** [r+] *)
Definition Plus (r : regex) : regex := Seq r (Star r).
(** [r?] *)
Definition Opt (r : regex) : regex := Alt r Eps.

(** A literal string. *)
Fixpoint Lit (s : string) : regex :=
  match s with
  | EmptyString => Eps
  | String a s' => Seq (Chr (Ascii.eqb a)) (Lit s')
  end.

(** Character classes. *)
Definition one_of (cs : list ascii) : ascii → bool :=
  λ a, existsb (Ascii.eqb a) cs.
Definition none_of (cs : list ascii) : ascii → bool := λ a, negb (one_of cs a).
(** The two quote characters, ['] and the double quote. *)
Definition quotes : list ascii := ["'"%char; "034"%char].
Definition in_range (lo hi : ascii) : ascii → bool :=
  λ a, (nat_of_ascii lo <=? nat_of_ascii a)%nat
       && (nat_of_ascii a <=? nat_of_ascii hi)%nat.
(** [.] matches anything but a newline. *)
Definition dot : ascii → bool := λ a, negb (Ascii.eqb a "010"%char).
(** [\s] on a [str] pattern, for the ASCII characters: tab to carriage
    return, the four separators 28 to 31, and the space. *)
Definition space : ascii → bool :=
  λ a, let n := nat_of_ascii a in
       ((9 <=? n)%nat && (n <=? 13)%nat) || ((28 <=? n)%nat && (n <=? 32)%nat).

(** A match object: what follows the match in the subject, and the groups. *)
Definition match_at (r : regex) (s : string) : option (string * captures) :=
  rmatch r s [] (λ s' c, Some (s', c)).

(** [re.match(r, s)]: a match at the start of [s]. *)
Definition re_match (r : regex) (s : string) : option captures :=
  snd <$> match_at r s.

(** [re.search(r, s)]: the leftmost match. *)
Fixpoint re_search (r : regex) (s : string) : option captures :=
  match re_match r s with
  | Some c => Some c
  | None =>
      match s with
      | EmptyString => None
      | String _ s' => re_search r s'
      end
  end.

(** [re.findall(r, s)] for a pattern with one group: group 1 of every
    match, left to right, matches not overlapping.  [skip] is the number of
    characters of the last match still to be passed over. *)
Fixpoint findall_from (r : regex) (skip : nat) (s : string) : list string :=
  match skip with
  | S k =>
      match s with
      | EmptyString => []
      | String _ s' => findall_from r k s'
      end
  | O =>
      match match_at r s with
      | Some (rest, c) =>
          group c 1 ::
            match s with
            | EmptyString => []
            | String _ s' =>
                findall_from r (String.length s - String.length rest - 1) s'
            end
      | None =>
          match s with
          | EmptyString => []
          | String _ s' => findall_from r 0 s'
          end
      end
  end.

Definition re_findall (r : regex) (s : string) : list string :=
  findall_from r 0 s.

End Re.

(** ** The parsed page: the part of BeautifulSoup's tree the analyzer reads

    A tag carries its name, its [class] attribute (a list of class names, as
    BeautifulSoup splits it; [None] when the tag has none), its other
    attributes as strings in document order, and its children.  A string of
    the page is a [NavigableString]; [Comment] is its subclass for comment
    nodes, whose text [get_text] leaves out. *)

Module Bs4.

Inductive string_kind : Type := PlainString | Comment.

Inductive node : Type :=
  | Tag (name : string) (class : option (list string))
        (attrs : list (string * string)) (contents : list node)
  | NavigableString (kind : string_kind) (text : string).

(** The [BeautifulSoup] object: the top-level nodes of the page. *)
Definition soup : Type := list node.

(** A node followed by everything below it, in document order. *)
Fixpoint self_and_descendants (n : node) : list node :=
  n :: match n with
       | Tag _ _ _ cs => List.flat_map self_and_descendants cs
       | NavigableString _ _ => []
       end.

Definition descendants (doc : soup) : list node :=
  List.flat_map self_and_descendants doc.

Definition is_tag (n : node) : bool :=
  match n with Tag _ _ _ _ => true | NavigableString _ _ => false end.

Definition name_of (n : node) : string :=
  match n with Tag nm _ _ _ => nm | NavigableString _ _ => "" end.

(** [tag.get("class")] *)
Definition class_of (n : node) : option (list string) :=
  match n with Tag _ c _ _ => c | NavigableString _ _ => None end.

(** [tag.get("class", [])] *)
Definition classes_of (n : node) : list string := default [] (class_of n).

(** [tag.attrs], the class attribute apart. *)
Definition attrs_of (n : node) : list (string * string) :=
  match n with Tag _ _ a _ => a | NavigableString _ _ => [] end.

Fixpoint assoc (key : string) (l : list (string * string)) : option string :=
  match l with
  | [] => None
  | (k, v) :: l' => if String.eqb k key then Some v else assoc key l'
  end.

(** [tag.get(key)] for an attribute other than [class]. *)
Definition get (n : node) (key : string) : option string :=
  assoc key (attrs_of n).

(** Python's truth value of [tag.get(key)]: present and not empty. *)
Definition truthy (o : option string) : bool :=
  match o with
  | Some s => negb (String.eqb s "")
  | None => false
  end.

(** [soup.find_all()]: every tag, in document order. *)
Definition find_all_tags (doc : soup) : list node :=
  filter (λ n, Is_true (is_tag n)) (descendants doc).

(** [soup.find_all(name)] *)
Definition find_all (doc : soup) (name : string) : list node :=
  filter (λ n, Is_true (String.eqb (name_of n) name)) (find_all_tags doc).

(** [soup.find_all(name, key=True)]: the tags of that name that have the
    attribute. *)
Definition find_all_with (doc : soup) (name key : string) : list node :=
  filter (λ n, is_Some (get n key)) (find_all doc name).

(** [soup.find_all(name, {key: value})] *)
Definition find_all_attr (doc : soup) (name key value : string) : list node :=
  filter (λ n, get n key = Some value) (find_all doc name).

(** [soup.find_all(class_=True)] *)
Definition find_all_classed (doc : soup) : list node :=
  filter (λ n, is_Some (class_of n)) (find_all_tags doc).

(** [soup.find_all(string=pred)]: the strings of the page that satisfy
    [pred]. *)
Definition find_all_strings (doc : soup) (pred : string → bool) : list string :=
  omap (λ n, match n with
             | NavigableString _ s => if pred s then Some s else None
             | Tag _ _ _ _ => None
             end) (descendants doc).

(** [soup.find("div", {"class": cls})] is not [None]: some [div] has [cls]
    among its classes. *)
Definition has_div_of_class (doc : soup) (cls : string) : bool :=
  existsb (λ n, existsb (String.eqb cls) (classes_of n)) (find_all doc "div").

(** [tag.text]: the strings below the tag, comments left out, joined. *)
Fixpoint text_of (n : node) : string :=
  match n with
  | NavigableString PlainString s => s
  | NavigableString Comment _ => ""
  | Tag _ _ _ cs => fold_right (λ c acc, text_of c +:+ acc) "" cs
  end.

(** [tag.string]: the only string below the tag, through only children. *)
Fixpoint string_of (n : node) : option string :=
  match n with
  | NavigableString _ s => Some s
  | Tag _ _ _ [c] => string_of c
  | Tag _ _ _ _ => None
  end.

End Bs4.

(** ** What the analyzer takes from the Python runtime

    [urllib.parse] and [json] are libraries outside this program: the
    analyzer is modelled for any behaviour of theirs.
    - [urljoin base href] is what [urllib.parse.urljoin(base, href)]
      returns;
    - [netloc url] is what [urllib.parse.urlparse(url).netloc] returns (the
      inputs on which the two calls raise are those of [UrlErrors], with
      the crawl that such an exception ends, [crawl_exc]);
    - [json_loads_str s] is [Some (str(json.loads(s)))], or [None] when
      [json.loads] raises;
    - [set_iter s] is the order in which the program meets the members of
      the set [s] when it iterates over it. *)

Class PyRuntime : Type := {
  urljoin : string → string → string;
  netloc : string → string;
  json_loads_str : string → option string;
  set_iter : ∀ {A} `{Countable A}, gset A → list A;
  set_iter_perm : ∀ {A} `{Countable A} (s : gset A), set_iter s ≡ₚ elements s
}.

(** ** The analyzer object *)

Record analyzer : Type := mk_analyzer {
  base_url : string;
  max_pages : Z;
  verbose : bool;
  visited_urls : gset string;
  plugins_detected : gset (string * string);
  themes_detected : gset (string * string);
  main_theme : option string;
  child_theme : option string;
  custom_post_types : gset string;
  shortcodes : gset string;
  rest_endpoints : gset string;
  custom_data_attributes : gset string;
  ajax_calls : gset string;
  gutenberg_blocks : gset string;
  custom_code_indicators : list string;
  css_classes : gset string
}.

(** [WooCommerceAnalyzer(base_url, max_pages, verbose)] *)
Definition init (url : string) (pages : Z) (verb : bool) : analyzer :=
  {| base_url := url; max_pages := pages; verbose := verb;
     visited_urls := ∅; plugins_detected := ∅; themes_detected := ∅;
     main_theme := None; child_theme := None;
     custom_post_types := ∅; shortcodes := ∅; rest_endpoints := ∅;
     custom_data_attributes := ∅; ajax_calls := ∅; gutenberg_blocks := ∅;
     custom_code_indicators := []; css_classes := ∅ |}.

(** *** Assignments to one field of [self] *)

Definition set_base_url (v : string) (self : analyzer) : analyzer :=
  {| base_url := v; max_pages := max_pages self; verbose := verbose self;
     visited_urls := visited_urls self;
     plugins_detected := plugins_detected self;
     themes_detected := themes_detected self; main_theme := main_theme self;
     child_theme := child_theme self;
     custom_post_types := custom_post_types self;
     shortcodes := shortcodes self; rest_endpoints := rest_endpoints self;
     custom_data_attributes := custom_data_attributes self;
     ajax_calls := ajax_calls self;
     gutenberg_blocks := gutenberg_blocks self;
     custom_code_indicators := custom_code_indicators self;
     css_classes := css_classes self |}.

Definition set_visited_urls (v : gset string) (self : analyzer) : analyzer :=
  {| base_url := base_url self; max_pages := max_pages self;
     verbose := verbose self; visited_urls := v;
     plugins_detected := plugins_detected self;
     themes_detected := themes_detected self; main_theme := main_theme self;
     child_theme := child_theme self;
     custom_post_types := custom_post_types self;
     shortcodes := shortcodes self; rest_endpoints := rest_endpoints self;
     custom_data_attributes := custom_data_attributes self;
     ajax_calls := ajax_calls self;
     gutenberg_blocks := gutenberg_blocks self;
     custom_code_indicators := custom_code_indicators self;
     css_classes := css_classes self |}.

Definition set_plugins_detected (v : gset (string * string)) (self : analyzer) : analyzer :=
  {| base_url := base_url self; max_pages := max_pages self;
     verbose := verbose self; visited_urls := visited_urls self;
     plugins_detected := v; themes_detected := themes_detected self;
     main_theme := main_theme self; child_theme := child_theme self;
     custom_post_types := custom_post_types self;
     shortcodes := shortcodes self; rest_endpoints := rest_endpoints self;
     custom_data_attributes := custom_data_attributes self;
     ajax_calls := ajax_calls self;
     gutenberg_blocks := gutenberg_blocks self;
     custom_code_indicators := custom_code_indicators self;
     css_classes := css_classes self |}.

Definition set_themes_detected (v : gset (string * string)) (self : analyzer) : analyzer :=
  {| base_url := base_url self; max_pages := max_pages self;
     verbose := verbose self; visited_urls := visited_urls self;
     plugins_detected := plugins_detected self; themes_detected := v;
     main_theme := main_theme self; child_theme := child_theme self;
     custom_post_types := custom_post_types self;
     shortcodes := shortcodes self; rest_endpoints := rest_endpoints self;
     custom_data_attributes := custom_data_attributes self;
     ajax_calls := ajax_calls self;
     gutenberg_blocks := gutenberg_blocks self;
     custom_code_indicators := custom_code_indicators self;
     css_classes := css_classes self |}.

Definition set_main_theme (v : option string) (self : analyzer) : analyzer :=
  {| base_url := base_url self; max_pages := max_pages self;
     verbose := verbose self; visited_urls := visited_urls self;
     plugins_detected := plugins_detected self;
     themes_detected := themes_detected self; main_theme := v;
     child_theme := child_theme self;
     custom_post_types := custom_post_types self;
     shortcodes := shortcodes self; rest_endpoints := rest_endpoints self;
     custom_data_attributes := custom_data_attributes self;
     ajax_calls := ajax_calls self;
     gutenberg_blocks := gutenberg_blocks self;
     custom_code_indicators := custom_code_indicators self;
     css_classes := css_classes self |}.

Definition set_child_theme (v : option string) (self : analyzer) : analyzer :=
  {| base_url := base_url self; max_pages := max_pages self;
     verbose := verbose self; visited_urls := visited_urls self;
     plugins_detected := plugins_detected self;
     themes_detected := themes_detected self; main_theme := main_theme self;
     child_theme := v; custom_post_types := custom_post_types self;
     shortcodes := shortcodes self; rest_endpoints := rest_endpoints self;
     custom_data_attributes := custom_data_attributes self;
     ajax_calls := ajax_calls self;
     gutenberg_blocks := gutenberg_blocks self;
     custom_code_indicators := custom_code_indicators self;
     css_classes := css_classes self |}.

Definition set_custom_post_types (v : gset string) (self : analyzer) : analyzer :=
  {| base_url := base_url self; max_pages := max_pages self;
     verbose := verbose self; visited_urls := visited_urls self;
     plugins_detected := plugins_detected self;
     themes_detected := themes_detected self; main_theme := main_theme self;
     child_theme := child_theme self; custom_post_types := v;
     shortcodes := shortcodes self; rest_endpoints := rest_endpoints self;
     custom_data_attributes := custom_data_attributes self;
     ajax_calls := ajax_calls self;
     gutenberg_blocks := gutenberg_blocks self;
     custom_code_indicators := custom_code_indicators self;
     css_classes := css_classes self |}.

Definition set_shortcodes (v : gset string) (self : analyzer) : analyzer :=
  {| base_url := base_url self; max_pages := max_pages self;
     verbose := verbose self; visited_urls := visited_urls self;
     plugins_detected := plugins_detected self;
     themes_detected := themes_detected self; main_theme := main_theme self;
     child_theme := child_theme self;
     custom_post_types := custom_post_types self; shortcodes := v;
     rest_endpoints := rest_endpoints self;
     custom_data_attributes := custom_data_attributes self;
     ajax_calls := ajax_calls self;
     gutenberg_blocks := gutenberg_blocks self;
     custom_code_indicators := custom_code_indicators self;
     css_classes := css_classes self |}.

Definition set_rest_endpoints (v : gset string) (self : analyzer) : analyzer :=
  {| base_url := base_url self; max_pages := max_pages self;
     verbose := verbose self; visited_urls := visited_urls self;
     plugins_detected := plugins_detected self;
     themes_detected := themes_detected self; main_theme := main_theme self;
     child_theme := child_theme self;
     custom_post_types := custom_post_types self;
     shortcodes := shortcodes self; rest_endpoints := v;
     custom_data_attributes := custom_data_attributes self;
     ajax_calls := ajax_calls self;
     gutenberg_blocks := gutenberg_blocks self;
     custom_code_indicators := custom_code_indicators self;
     css_classes := css_classes self |}.

Definition set_custom_data_attributes (v : gset string) (self : analyzer) : analyzer :=
  {| base_url := base_url self; max_pages := max_pages self;
     verbose := verbose self; visited_urls := visited_urls self;
     plugins_detected := plugins_detected self;
     themes_detected := themes_detected self; main_theme := main_theme self;
     child_theme := child_theme self;
     custom_post_types := custom_post_types self;
     shortcodes := shortcodes self; rest_endpoints := rest_endpoints self;
     custom_data_attributes := v; ajax_calls := ajax_calls self;
     gutenberg_blocks := gutenberg_blocks self;
     custom_code_indicators := custom_code_indicators self;
     css_classes := css_classes self |}.

Definition set_ajax_calls (v : gset string) (self : analyzer) : analyzer :=
  {| base_url := base_url self; max_pages := max_pages self;
     verbose := verbose self; visited_urls := visited_urls self;
     plugins_detected := plugins_detected self;
     themes_detected := themes_detected self; main_theme := main_theme self;
     child_theme := child_theme self;
     custom_post_types := custom_post_types self;
     shortcodes := shortcodes self; rest_endpoints := rest_endpoints self;
     custom_data_attributes := custom_data_attributes self; ajax_calls := v;
     gutenberg_blocks := gutenberg_blocks self;
     custom_code_indicators := custom_code_indicators self;
     css_classes := css_classes self |}.

Definition set_gutenberg_blocks (v : gset string) (self : analyzer) : analyzer :=
  {| base_url := base_url self; max_pages := max_pages self;
     verbose := verbose self; visited_urls := visited_urls self;
     plugins_detected := plugins_detected self;
     themes_detected := themes_detected self; main_theme := main_theme self;
     child_theme := child_theme self;
     custom_post_types := custom_post_types self;
     shortcodes := shortcodes self; rest_endpoints := rest_endpoints self;
     custom_data_attributes := custom_data_attributes self;
     ajax_calls := ajax_calls self; gutenberg_blocks := v;
     custom_code_indicators := custom_code_indicators self;
     css_classes := css_classes self |}.

Definition set_custom_code_indicators (v : list string) (self : analyzer) : analyzer :=
  {| base_url := base_url self; max_pages := max_pages self;
     verbose := verbose self; visited_urls := visited_urls self;
     plugins_detected := plugins_detected self;
     themes_detected := themes_detected self; main_theme := main_theme self;
     child_theme := child_theme self;
     custom_post_types := custom_post_types self;
     shortcodes := shortcodes self; rest_endpoints := rest_endpoints self;
     custom_data_attributes := custom_data_attributes self;
     ajax_calls := ajax_calls self;
     gutenberg_blocks := gutenberg_blocks self; custom_code_indicators := v;
     css_classes := css_classes self |}.

Definition set_css_classes (v : gset string) (self : analyzer) : analyzer :=
  {| base_url := base_url self; max_pages := max_pages self;
     verbose := verbose self; visited_urls := visited_urls self;
     plugins_detected := plugins_detected self;
     themes_detected := themes_detected self; main_theme := main_theme self;
     child_theme := child_theme self;
     custom_post_types := custom_post_types self;
     shortcodes := shortcodes self; rest_endpoints := rest_endpoints self;
     custom_data_attributes := custom_data_attributes self;
     ajax_calls := ajax_calls self;
     gutenberg_blocks := gutenberg_blocks self;
     custom_code_indicators := custom_code_indicators self;
     css_classes := v |}.

(** [self.<set>.add(x)] and [self.custom_code_indicators.append(x)] *)

Definition add_visited_url (x : string) (self : analyzer) : analyzer :=
  set_visited_urls ({[x]} ∪ visited_urls self) self.
Definition add_plugin (x : string * string) (self : analyzer) : analyzer :=
  set_plugins_detected ({[x]} ∪ plugins_detected self) self.
Definition add_theme (x : string * string) (self : analyzer) : analyzer :=
  set_themes_detected ({[x]} ∪ themes_detected self) self.
Definition add_custom_post_type (x : string) (self : analyzer) : analyzer :=
  set_custom_post_types ({[x]} ∪ custom_post_types self) self.
Definition add_shortcode (x : string) (self : analyzer) : analyzer :=
  set_shortcodes ({[x]} ∪ shortcodes self) self.
Definition add_rest_endpoint (x : string) (self : analyzer) : analyzer :=
  set_rest_endpoints ({[x]} ∪ rest_endpoints self) self.
Definition add_custom_data_attribute (x : string) (self : analyzer) : analyzer :=
  set_custom_data_attributes ({[x]} ∪ custom_data_attributes self) self.
Definition add_ajax_call (x : string) (self : analyzer) : analyzer :=
  set_ajax_calls ({[x]} ∪ ajax_calls self) self.
Definition add_gutenberg_block (x : string) (self : analyzer) : analyzer :=
  set_gutenberg_blocks ({[x]} ∪ gutenberg_blocks self) self.
Definition add_css_class (x : string) (self : analyzer) : analyzer :=
  set_css_classes ({[x]} ∪ css_classes self) self.
Definition append_indicator (x : string) (self : analyzer) : analyzer :=
  set_custom_code_indicators (custom_code_indicators self ++ [x]) self.

(** *** The catalogs set up by [__init__] *)

Import Re.

(** [r"<prefix>([^/]+)/"] *)
Definition dir_pattern (prefix : string) : regex :=
  Seq (Lit prefix) (Seq (Group 1 (Plus (Chr (none_of ["/"%char])))) (Lit "/")).

Definition plugin_path_patterns : list regex :=
  [ dir_pattern "/wp-content/plugins/";
    dir_pattern "/app/plugins/";
    dir_pattern "/plugins/";
    dir_pattern "/wp/plugins/" ].

Definition theme_path_patterns : list regex :=
  [ dir_pattern "/wp-content/themes/";
    dir_pattern "/app/themes/";
    dir_pattern "/themes/";
    dir_pattern "/wp/themes/" ].

Definition known_plugins : gmap string string :=
  list_to_map
  [ ("woocommerce", "WooCommerce - Core eCommerce functionality");
    ("jetpack", "Jetpack - Security, performance, and marketing tools");
    ("gravityforms", "Gravity Forms - Advanced forms and submissions");
    ("elementor", "Elementor - Page builder");
    ("js_composer", "WPBakery Page Builder (formerly Visual Composer)");
    ("wp-super-cache", "WP Super Cache - Caching plugin");
    ("w3-total-cache", "W3 Total Cache - Performance optimization");
    ("akismet", "Akismet - Spam protection");
    ("contact-form-7", "Contact Form 7 - Form handling");
    ("wordpress-seo", "Yoast SEO - Search engine optimization");
    ("revslider", "Revolution Slider - Slider plugin");
    ("wc-product-bundles",
     "WooCommerce Product Bundles - Create bundles and composite products");
    ("woocommerce-gateway-stripe",
     "WooCommerce Stripe Gateway - Payment processing");
    ("woocommerce-gateway-paypal-express-checkout",
     "WooCommerce PayPal Checkout Gateway");
    ("wc-ajax-product-filter", "AJAX Product Filters for WooCommerce");
    ("wc-quantity-plus-minus-buttons",
     "Quantity Plus Minus Buttons for WooCommerce");
    ("woocommerce-composite-products", "WooCommerce Composite Products");
    ("woocommerce-bookings", "WooCommerce Bookings - Booking system");
    ("woocommerce-subscriptions",
     "WooCommerce Subscriptions - Subscription functionality");
    ("woocommerce-product-addons", "WooCommerce Product Add-ons");
    ("woocommerce-photography",
     "WooCommerce Photography - Photo selling features");
    ("woocommerce-memberships",
     "WooCommerce Memberships - Membership functionality");
    ("klaviyo", "Klaviyo - Email marketing integration");
    ("mailchimp-for-woocommerce",
     "Mailchimp for WooCommerce - Email marketing");
    ("woocommerce-shipstation-integration",
     "WooCommerce ShipStation Integration");
    ("woocommerce-square", "WooCommerce Square - Payment and POS integration");
    ("ups-woocommerce-shipping",
     "UPS WooCommerce Shipping - Shipping integration");
    ("woocommerce-gateway-authorize-net-cim", "Authorize.net Payment Gateway");
    ("woocommerce-advanced-shipping",
     "WooCommerce Advanced Shipping - Complex shipping rules") ].

(** [key in self.known_plugins] *)
Definition is_known_plugin (key : string) : bool :=
  bool_decide (is_Some (known_plugins !! key)).

(** *** [_check_asset_for_plugin] *)

(** [for pattern in patterns: m = re.search(pattern, url); if m: ...; break]:
    the match of the first pattern that matches. *)
Fixpoint first_match (patterns : list regex) (url : string) : option captures :=
  match patterns with
  | [] => None
  | pattern :: rest =>
      match re_search pattern url with
      | Some m => Some m
      | None => first_match rest url
      end
  end.

(** [any(parent_theme == name for name, _ in self.themes_detected)] *)
Definition has_theme_named (name : string) (self : analyzer) : bool :=
  bool_decide (set_Exists (λ p, p.1 = name) (themes_detected self)).

Definition inferred_parent_evidence : string :=
  "Parent theme detected via child theme reference".

Definition check_asset_plugin (asset_url : string) (self : analyzer) : analyzer :=
  match first_match plugin_path_patterns asset_url with
  | Some plugin_match =>
      let plugin_name := group plugin_match 1 in
      let self := add_plugin (plugin_name, asset_url) self in
      if Py.contains "pop" (Py.lower plugin_name)
         || Py.contains "sign" (Py.lower plugin_name)
      then append_indicator ("Custom Plugin: " +:+ plugin_name) self
      else self
  | None => self
  end.

Definition check_asset_theme (asset_url : string) (self : analyzer) : analyzer :=
  match first_match theme_path_patterns asset_url with
  | Some theme_match =>
      let theme_name := group theme_match 1 in
      let self := add_theme (theme_name, asset_url) self in
      if Py.contains "-child" theme_name then
        let parent_theme := Py.replace theme_name "-child" "" in
        if negb (has_theme_named parent_theme self)
        then add_theme (parent_theme, inferred_parent_evidence) self
        else self
      else self
  | None => self
  end.

Definition _check_asset_for_plugin (asset_url : string) (self : analyzer)
  : analyzer :=
  check_asset_theme asset_url (check_asset_plugin asset_url self).

(** *** [_add_potential_plugin_from_pattern] *)

(** The class patterns, each with the text that names it in the source;
    [^] is left out of the compiled pattern because [re.match] only matches
    at the start. *)
Definition plugin_patterns : list (string * regex) :=
  [ ("^wc-", Lit "wc-"); ("^yith-", Lit "yith-");
    ("^elementor-", Lit "elementor-"); ("^wp-block-", Lit "wp-block-");
    ("^et_", Lit "et_"); ("^fl-", Lit "fl-") ].

Definition pattern_to_plugin : list (string * string) :=
  [ ("^wc-", "WooCommerce"); ("^yith-", "YITH Plugin");
    ("^elementor-", "Elementor"); ("^wp-block-", "Gutenberg");
    ("^et_", "Divi"); ("^fl-", "Beaver Builder") ].

Definition _add_potential_plugin_from_pattern (pattern css_class : string)
    (self : analyzer) : analyzer :=
  match Bs4.assoc pattern pattern_to_plugin with
  | Some label => add_plugin (label, "CSS Class: " +:+ css_class) self
  | None => self
  end.

(** *** [detect_plugins_from_html] *)

(** The check of a [script] or [link] id: [marker] is ["-js"] or ["-css"],
    [label] is ["Script ID: "] or ["Link ID: "]. *)
Definition check_asset_id (marker label : string) (tag : Bs4.node)
    (self : analyzer) : analyzer :=
  if Bs4.truthy (Bs4.get tag "id") then
    let tag_id := default "" (Bs4.get tag "id") in
    if Py.contains marker tag_id then
      let potential_plugin := Py.replace tag_id marker "" in
      if is_known_plugin potential_plugin
      then add_plugin (potential_plugin, label +:+ tag_id) self
      else self
    else self
  else self.

(** Body of [for script in all_scripts] and of [for link in all_links]:
    [key] is the attribute that holds the asset URL. *)
Definition scan_asset (key marker label : string) (self : analyzer)
    (tag : Bs4.node) : analyzer :=
  let asset_url := default "" (Bs4.get tag key) in
  check_asset_id marker label tag (_check_asset_for_plugin asset_url self).

Definition scan_script : analyzer → Bs4.node → analyzer :=
  scan_asset "src" "-js" "Script ID: ".

Definition scan_link : analyzer → Bs4.node → analyzer :=
  scan_asset "href" "-css" "Link ID: ".

(** Body of [for pattern in plugin_patterns]. *)
Definition scan_class_pattern (css_class : string) (self : analyzer)
    (pattern : string * regex) : analyzer :=
  match re_match pattern.2 css_class with
  | Some _ => _add_potential_plugin_from_pattern pattern.1 css_class self
  | None => self
  end.

(** Body of [for css_class in classes]. *)
Definition scan_css_class (self : analyzer) (css_class : string) : analyzer :=
  foldl (scan_class_pattern css_class) (add_css_class css_class self)
        plugin_patterns.

(** Body of [for tag in soup.find_all(class_=True)]. *)
Definition scan_classed_tag (self : analyzer) (tag : Bs4.node) : analyzer :=
  foldl scan_css_class self (Bs4.classes_of tag).

(** [r"plugin ['\"](.*?)['\"]"] *)
Definition comment_plugin_pattern : regex :=
  Seq (Lit "plugin ")
      (Seq (Chr (one_of quotes))
           (Seq (Group 1 (LazyStar (Chr dot))) (Chr (one_of quotes)))).

(** The filter of [soup.find_all(string=...)]. *)
Definition looks_like_comment (text : string) : bool :=
  Py.startswith (Py.strip text) "<!--".

(** Body of [for comment in comments]. *)
Definition scan_comment (self : analyzer) (comment : string) : analyzer :=
  if Py.contains "plugin" (Py.lower comment) then
    let self :=
      append_indicator
        ("HTML Comment: " +:+ Py.slice_to 100 (Py.strip comment)) self in
    match re_search comment_plugin_pattern (Py.lower comment) with
    | Some plugin_name_match =>
        add_plugin (group plugin_name_match 1,
                    "Comment: " +:+ Py.slice_to 50 comment +:+ "...") self
    | None => self
    end
  else self.

(** The [div]s kept by the comprehension [gutenberg_patterns]. *)
Definition is_gutenberg_div (div : Bs4.node) : bool :=
  match Bs4.class_of div with
  | Some (_ :: _) => existsb (Py.contains "wp-block-") (Bs4.classes_of div)
  | _ => false
  end.

(** Body of [for block in gutenberg_patterns]. *)
Definition scan_block (self : analyzer) (block : Bs4.node) : analyzer :=
  match filter (λ cls, Is_true (Py.startswith cls "wp-block-"))
               (Bs4.classes_of block) with
  | block_name :: _ => add_gutenberg_block block_name self
  | [] => self
  end.

(** [[a-z0-9-_]] *)
Definition slug_char : ascii → bool :=
  λ a, in_range "a" "z" a || in_range "0" "9" a
       || one_of ["-"%char; "_"%char] a.

(** [r"/([a-z0-9-_]+)/[a-z0-9-_]+/?$"] *)
Definition post_type_pattern : regex :=
  Seq (Lit "/")
      (Seq (Group 1 (Plus (Chr slug_char)))
           (Seq (Lit "/")
                (Seq (Plus (Chr slug_char)) (Seq (Opt (Lit "/")) Eol)))).

Definition builtin_post_types : list string :=
  ["category"; "tag"; "product"; "post"; "page"].

(** Body of [for link in links] (custom post types in URLs). *)
Definition scan_post_type (self : analyzer) (link : Bs4.node) : analyzer :=
  let href := default "" (Bs4.get link "href") in
  match re_search post_type_pattern href with
  | Some post_type_match =>
      if existsb (String.eqb (group post_type_match 1)) builtin_post_types
      then self
      else add_custom_post_type (group post_type_match 1) self
  | None => self
  end.

(** Body of [for meta in meta_tags]. *)
Definition scan_meta (self : analyzer) (meta : Bs4.node) : analyzer :=
  if Bs4.truthy (Bs4.get meta "name")
     && Py.contains "generator" (default "" (Bs4.get meta "name"))
  then
    let content := default "" (Bs4.get meta "content") in
    if Py.contains "plugin" (Py.lower content)
    then add_plugin (content, "Meta Generator Tag") self
    else self
  else self.

(** The two direct checks that end the method. *)
Definition scan_signatures (doc : Bs4.soup) (self : analyzer) : analyzer :=
  let self :=
    if Bs4.has_div_of_class doc "widget_shopping_cart_content"
    then add_plugin ("woocommerce", "Shopping Cart Widget") self else self in
  if Bs4.has_div_of_class doc "woocommerce-product-gallery"
  then add_plugin ("woocommerce", "Product Gallery") self else self.

Definition detect_plugins_from_html (doc : Bs4.soup) (url : string)
    (self : analyzer) : analyzer :=
  let all_scripts := Bs4.find_all_with doc "script" "src" in
  let all_links := Bs4.find_all_with doc "link" "href" in
  let self := foldl scan_script self all_scripts in
  let self := foldl scan_link self all_links in
  let self := foldl scan_classed_tag self (Bs4.find_all_classed doc) in
  let self :=
    foldl scan_comment self (Bs4.find_all_strings doc looks_like_comment) in
  let self :=
    foldl scan_block self
          (filter (λ d, Is_true (is_gutenberg_div d)) (Bs4.find_all doc "div")) in
  let self := foldl scan_post_type self (Bs4.find_all_with doc "a" "href") in
  let self := foldl scan_meta self (Bs4.find_all doc "meta") in
  scan_signatures doc self.

(** *** [detect_custom_functionality] *)

Section detectors.
Context `{rt : PyRuntime}.

(** Body of [for attr in tag.attrs]. *)
Definition scan_attr (tag : Bs4.node) (self : analyzer) (attr : string)
  : analyzer :=
  if Py.startswith attr "data-" then
    if negb (existsb (λ x, Py.contains x attr)
                     ["elementor"; "woocommerce"; "product"])
    then add_custom_data_attribute
           (attr +:+ "=" +:+ default "" (Bs4.get tag attr)) self
    else self
  else self.

(** Body of [for tag in soup.find_all()]. *)
Definition scan_data_attributes (self : analyzer) (tag : Bs4.node) : analyzer :=
  foldl (scan_attr tag) self (Bs4.attrs_of tag).*1.

(** [r"action=(['\"])([^'\"]+)\\1"]: in the raw string the pattern ends in
    an escaped backslash followed by the digit 1, so it asks for those two
    characters and not for the quote of group 1. *)
Definition ajax_action_pattern : regex :=
  Seq (Lit "action=")
      (Seq (Group 1 (Chr (one_of quotes)))
           (Seq (Group 2 (Plus (Chr (none_of quotes))))
                (Seq (Chr (Ascii.eqb "\"%char)) (Chr (Ascii.eqb "1"%char))))).

(** [r"/wp-json/([^/\"']+)/([^/\"']+)"] *)
Definition rest_endpoint_pattern : regex :=
  let part := Chr (none_of ("/"%char :: quotes)) in
  Seq (Lit "/wp-json/")
      (Seq (Group 1 (Plus part)) (Seq (Lit "/") (Group 2 (Plus part)))).

(** [r"\[([a-zA-Z0-9_-]+)(?:\s+[^\]]+)?\]"] *)
Definition shortcode_pattern : regex :=
  let name_char := λ a, in_range "a" "z" a || in_range "A" "Z" a
                        || in_range "0" "9" a
                        || one_of ["_"%char; "-"%char] a in
  Seq (Lit "[")
      (Seq (Group 1 (Plus (Chr name_char)))
           (Seq (Opt (Seq (Plus (Chr space)) (Plus (Chr (none_of ["]"%char])))))
                (Lit "]"))).

Definition scan_ajax (script_text : string) (self : analyzer) : analyzer :=
  if Py.contains "admin-ajax.php" script_text then
    match re_search ajax_action_pattern script_text with
    | Some ajax_action =>
        add_ajax_call ("AJAX action: " +:+ group ajax_action 2) self
    | None =>
        add_ajax_call
          (if (100 <? Py.len script_text)%nat
           then Py.slice_to 100 (Py.strip script_text) +:+ "..."
           else script_text) self
    end
  else self.

Definition scan_rest (script_text : string) (self : analyzer) : analyzer :=
  if Py.contains "/wp-json/" script_text then
    match re_search rest_endpoint_pattern script_text with
    | Some rest_endpoint =>
        add_rest_endpoint
          (group rest_endpoint 1 +:+ "/" +:+ group rest_endpoint 2) self
    | None => self
    end
  else self.

Definition scan_shortcodes (script_text : string) (self : analyzer) : analyzer :=
  foldl (λ st shortcode, add_shortcode shortcode st) self
        (re_findall shortcode_pattern script_text).

(** Body of the first [for script in soup.find_all("script")]. *)
Definition scan_script_text (self : analyzer) (script : Bs4.node) : analyzer :=
  let script_text := Bs4.text_of script in
  if Bs4.truthy (Bs4.string_of script) then
    scan_shortcodes script_text
      (scan_rest script_text (scan_ajax script_text self))
  else self.

(** Body of [for script in soup.find_all("script", {"type":
    "application/json"})]; a [json.loads] that raises is passed over. *)
Definition scan_json_block (self : analyzer) (script : Bs4.node) : analyzer :=
  if Bs4.truthy (Bs4.string_of script) then
    match json_loads_str (default "" (Bs4.string_of script)) with
    | Some json_data =>
        append_indicator
          ("JSON data block: " +:+ Py.slice_to 100 json_data +:+ "...") self
    | None => self
    end
  else self.

(** Body of the last [for script in soup.find_all("script")]. *)
Definition scan_inline_script (self : analyzer) (script : Bs4.node) : analyzer :=
  if bool_decide (Bs4.get script "src" = None)
     && Bs4.truthy (Bs4.string_of script)
     && (0 <? Py.len (Py.strip (default "" (Bs4.string_of script))))%nat
  then
    let script_text := Py.strip (default "" (Bs4.string_of script)) in
    if (100 <? Py.len script_text)%nat
       && negb (Py.contains "jQuery" (Py.slice_to 100 script_text))
       && negb (Py.contains "function(" (Py.slice_to 100 script_text))
    then append_indicator
           ("Custom JS: " +:+ Py.slice_to 100 script_text +:+ "...") self
    else self
  else self.

Definition detect_custom_functionality (doc : Bs4.soup) (self : analyzer)
  : analyzer :=
  let self := foldl scan_data_attributes self (Bs4.find_all_tags doc) in
  let self := foldl scan_script_text self (Bs4.find_all doc "script") in
  let self :=
    foldl scan_json_block self
          (Bs4.find_all_attr doc "script" "type" "application/json") in
  foldl scan_inline_script self (Bs4.find_all doc "script").

End detectors.

(** ** The network and the page fetcher

    [session.get(url, ...)] either returns a response, with a status code
    and a body that [BeautifulSoup] parses into a page, or raises (timeout,
    connection error).  [BeautifulSoup(response.text, "html.parser")]
    itself raises on some bodies (the parser rejects the markup); the body
    is parsed only when the status is 200, so [HttpUnparsable] stands for a
    response with status 200 and such a body.  The answer may differ from one request to the next, so it
    depends on the number of requests made before. *)

Inductive response : Type :=
  | HttpResponse (status_code : Z) (page : Bs4.soup)
  | HttpUnparsable
  | RequestError.

Definition network : Type := nat → string → response.

(** The analyzer together with the log of the URLs handed to [session.get],
    oldest first.  The log is not a variable of the program: it records the
    fetch attempts of a run. *)
Record process : Type := mk_process {
  self_of : analyzer;
  session_log : list string
}.

Definition on_self (f : analyzer → analyzer) (p : process) : process :=
  {| self_of := f (self_of p); session_log := session_log p |}.

(** [fetch_page]: [visited_urls.add] comes after [session.get] inside the
    [try], so it is not reached when the request raises; it comes before
    [BeautifulSoup(response.text, ...)], so the URL is visited when the
    parser raises, and the [except] then returns [None]. *)
Definition fetch_page (net : network) (url : string) (p : process)
  : option Bs4.soup * process :=
  if bool_decide (url ∈ visited_urls (self_of p)) then (None, p)
  else
    let answer := net (length (session_log p)) url in
    let p := {| self_of := self_of p;
                session_log := session_log p ++ [url] |} in
    match answer with
    | RequestError => (None, p)
    | HttpResponse status_code page =>
        let p := on_self (add_visited_url url) p in
        if (status_code =? 200)%Z then (Some page, p) else (None, p)
    | HttpUnparsable => (None, on_self (add_visited_url url) p)
    end.

Section crawl.
Context `{rt : PyRuntime}.

(** ** [extract_links] *)

(** The test of the first [if] of the loop: the link is skipped. *)
Definition skip_link (domain href full_url : string) : bool :=
  negb (String.eqb (netloc full_url) domain)
  || Py.startswith href "#"
  || negb (Py.startswith full_url "http://"
           || Py.startswith full_url "https://").

(** Body of [for a_tag in soup.find_all("a", href=True)]. *)
Definition scan_anchor (current_url : string) (self : analyzer)
    (internal_links : list string) (a_tag : Bs4.node) : list string :=
  let domain := netloc (base_url self) in
  let href := default "" (Bs4.get a_tag "href") in
  let full_url := urljoin current_url href in
  if skip_link domain href full_url then internal_links
  else if bool_decide (full_url ∈ visited_urls self) then internal_links
  else internal_links ++ [full_url].

Definition extract_links (doc : Bs4.soup) (current_url : string)
    (self : analyzer) : list string :=
  foldl (scan_anchor current_url self) [] (Bs4.find_all_with doc "a" "href").

(** ** [analyze_site] *)

(** The state of the [while] loop: the process, the two loop variables, and
    the pages that went through the detectors so far, in order (the last is
    not a variable of the program). *)
Record loop_state : Type := mk_loop_state {
  proc : process;
  pages_visited : Z;
  urls_to_visit : list string;
  analyzed : list Bs4.soup
}.

(** The part of an iteration that follows a successful fetch. *)
Definition analyze_page (soup : Bs4.soup) (current_url : string)
    (pages_visited : Z) (self : analyzer) : analyzer * list string :=
  let self := detect_plugins_from_html soup current_url self in
  let self := detect_custom_functionality soup self in
  if (pages_visited <? max_pages self)%Z then
    let new_links := extract_links soup current_url self in
    (self, Py.list_slice_to (max_pages self - pages_visited) new_links)
  else (self, []).

(** [urls_to_visit and pages_visited < self.max_pages] *)
Definition loop_condition (st : loop_state) : bool :=
  match urls_to_visit st with
  | [] => false
  | _ :: _ => (pages_visited st <? max_pages (self_of (proc st)))%Z
  end.

(** One iteration of the loop body. *)
Definition loop_body (net : network) (st : loop_state) : loop_state :=
  match urls_to_visit st with
  | [] => st
  | current_url :: rest =>
      match fetch_page net current_url (proc st) with
      | (None, p) => mk_loop_state p (pages_visited st) rest (analyzed st)
      | (Some soup, p) =>
          let pages_visited := (pages_visited st + 1)%Z in
          let '(self, new_links) :=
            analyze_page soup current_url pages_visited (self_of p) in
          mk_loop_state (on_self (λ _, self) p) pages_visited
                        (rest ++ new_links) (analyzed st ++ [soup])
      end
  end.

(** One turn of the [while]: the body when the condition holds, and the loop
    has ended otherwise. *)
Definition loop_turn (net : network) (st : loop_state) : loop_state :=
  if loop_condition st then loop_body net st else st.

(** The whole [while] loop.  The inner recursion follows the queue through
    failed fetches, which leave [pages_visited] alone; a successful fetch
    restarts it on the extended queue and uses up one of the [budget]
    analyses left ([budget] is [max_pages - pages_visited] at the start). *)
Fixpoint crawl (net : network) (budget : nat) (pages_visited : Z)
    (analyzed : list Bs4.soup) (p : process) (urls_to_visit : list string)
    {struct budget} : loop_state :=
  (fix drain (urls_to_visit : list string) (p : process)
       {struct urls_to_visit} : loop_state :=
     match urls_to_visit with
     | [] => mk_loop_state p pages_visited [] analyzed
     | current_url :: rest =>
         if (pages_visited <? max_pages (self_of p))%Z then
           match fetch_page net current_url p with
           | (None, p) => drain rest p
           | (Some soup, p) =>
               match budget with
               | O => mk_loop_state p pages_visited rest analyzed
               | S budget' =>
                   let pages_visited := (pages_visited + 1)%Z in
                   let '(self, new_links) :=
                     analyze_page soup current_url pages_visited (self_of p) in
                   crawl net budget' pages_visited (analyzed ++ [soup])
                         (on_self (λ _, self) p) (rest ++ new_links)
               end
           end
         else mk_loop_state p pages_visited urls_to_visit analyzed
     end) urls_to_visit p.

(** The statements after the loop, on [theme_names]. *)
Definition derive_themes (theme_names : list string) (self : analyzer)
  : analyzer :=
  match theme_names with
  | [] => self
  | [only] => set_main_theme (Some only) self
  | first :: second :: _ =>
      match filter (λ name, Is_true (Py.contains "-child" name)) theme_names
      with
      | child :: _ =>
          let self := set_child_theme (Some child) self in
          let parent_theme := Py.replace child "-child" "" in
          if bool_decide (parent_theme ∈ theme_names)
          then set_main_theme (Some parent_theme) self
          else
            match filter (λ name, ¬ Is_true (Py.contains "-child" name))
                         theme_names with
            | non_child :: _ => set_main_theme (Some non_child) self
            | [] => set_main_theme (Some first) self
            end
      | [] =>
          set_child_theme (Some second) (set_main_theme (Some first) self)
      end
  end.

Definition normalize_base_url (self : analyzer) : analyzer :=
  if Py.startswith (base_url self) "http://"
     || Py.startswith (base_url self) "https://"
  then self
  else set_base_url ("https://" +:+ base_url self) self.

(** The loop of [analyze_site], from the homepage. *)
Definition start (self : analyzer) : loop_state :=
  let self := normalize_base_url self in
  mk_loop_state (mk_process self []) 0 [base_url self] [].

Definition crawl_site (net : network) (self : analyzer) : loop_state :=
  let st := start self in
  crawl net (Z.to_nat (max_pages self)) (pages_visited st) (analyzed st)
        (proc st) (urls_to_visit st).

Definition analyze_site (net : network) (self : analyzer) : analyzer :=
  let self := self_of (proc (crawl_site net self)) in
  derive_themes (set_iter (themes_detected self)).*1 self.

End crawl.

(** ** [generate_report]

    The report is the returned string; writing it to a file when
    [save_to_file] is set does not change it and is left out. *)

Definition nl : string := String "010"%char EmptyString.

(** The headings, with the decorations as the source file spells them. *)
Definition title_line : string :=
  "ðŸ” **WooCommerce Website Analysis Report** ðŸ”" +:+ nl.
Definition plugins_heading : string :=
  "âœ… **Detected Plugins:**".
Definition no_plugins_line : string :=
  "âŒ No plugins were detected from front-end assets.".
Definition theme_heading : string :=
  "ðŸŽ¨ **Detected Theme:**".
Definition no_theme_line : string :=
  "âŒ No WordPress theme detected.".
Definition custom_plugins_heading : string :=
  "ðŸ› ï¸ **Custom Plugins Detected:**".
Definition blocks_heading : string :=
  "ðŸ“¦ **Detected Gutenberg Blocks:**".
Definition post_types_heading : string :=
  "ðŸ“‹ **Detected Custom Post Types:**".
Definition rest_heading : string :=
  "ðŸ”Œ **Detected REST API Endpoints:**".
Definition shortcodes_heading : string :=
  "ðŸ§© **Detected Shortcodes:**".
Definition custom_heading : string :=
  "âš¡ **Potential Custom Functionality:**".
Definition css_heading : string :=
  "ðŸ” **Interesting CSS Classes:**".
Definition closing_line : string :=
  "ðŸš€ **Analysis Complete!** ðŸš€".

(** [report += f"\n- {before}{item}{after}"] for every item, in order. *)
Definition bullets (before after : string) (items : list string) : string :=
  foldl (λ report item, report +:+ nl +:+ "- " +:+ before +:+ item +:+ after)
        "" items.

(** The line that tells how many items a capped list left out; nothing when
    [n], the length of the whole list, is within the cap. *)
Definition overflow_line (cap n : nat) : string :=
  if (cap <? n)%nat
  then nl +:+ "- ... and " +:+ Py.str_of_Z (Z.of_nat n - Z.of_nat cap) +:+ " more"
  else "".

(** Python's truth value of an optional string. *)
Definition nonempty (o : option string) : bool :=
  match o with Some s => negb (String.eqb s "") | None => false end.

Definition str_le (a b : string) : Prop := Is_true (String.leb a b).

Section report.
Context `{rt : PyRuntime}.

Definition report_header (self : analyzer) : string :=
  nl +:+ title_line
  +:+ nl +:+ "Target Website: " +:+ base_url self
  +:+ nl +:+ "Pages Analyzed: "
  +:+ Py.str_of_Z (Z.of_nat (size (visited_urls self))).

(** [sorted(plugin_dict.keys())] with ["woocommerce"] moved to the front. *)
Definition sorted_plugins (found : list (string * string)) : list string :=
  let sorted := merge_sort str_le (remove_dups found.*1) in
  if bool_decide ("woocommerce" ∈ sorted)
  then "woocommerce" :: filter (λ k, k ≠ "woocommerce") sorted
  else sorted.

(** [plugin_dict[plugin]]: the sources found for a plugin, in the order the
    set gave them. *)
Definition sources_of (plugin : string) (found : list (string * string))
  : list string :=
  (filter (λ entry, entry.1 = plugin) found).*2.

(** Body of [for plugin in sorted_plugins]. *)
Definition plugin_entry (self : analyzer) (found : list (string * string))
    (plugin : string) : string :=
  (match known_plugins !! Py.lower plugin with
   | Some description => nl +:+ "- " +:+ plugin +:+ " - " +:+ description
   | None => nl +:+ "- " +:+ plugin
   end)
  +:+ (if verbose self
       then foldl (λ report source, report +:+ nl +:+ "  - Found in: " +:+ source)
                  "" (take 3 (sources_of plugin found))
       else "").

Definition plugins_section (self : analyzer) : string :=
  let found := set_iter (plugins_detected self) in
  match found with
  | _ :: _ =>
      nl +:+ nl +:+ plugins_heading
      +:+ foldl (λ report plugin, report +:+ plugin_entry self found plugin)
                "" (sorted_plugins found)
  | [] => nl +:+ nl +:+ no_plugins_line
  end.

Definition theme_section (self : analyzer) : string :=
  match set_iter (themes_detected self) with
  | _ :: _ =>
      nl +:+ nl +:+ theme_heading
      +:+ (if nonempty (main_theme self)
           then nl +:+ "- Main Theme: " +:+ default "" (main_theme self)
           else "")
      +:+ (if nonempty (child_theme self)
           then nl +:+ "- Child Theme: " +:+ default "" (child_theme self)
           else "")
      +:+ (if verbose self
           then nl +:+ nl +:+ "Theme Assets:"
                +:+ bullets "" "" (set_iter (themes_detected self)).*2
           else "")
  | [] => nl +:+ nl +:+ no_theme_line
  end.

Definition is_custom_plugin (item : string) : bool :=
  Py.contains "Custom Plugin:" item.

Definition custom_plugins_section (self : analyzer) : string :=
  match filter (λ item, Is_true (is_custom_plugin item))
               (custom_code_indicators self) with
  | [] => ""
  | custom_plugins =>
      nl +:+ nl +:+ custom_plugins_heading
      +:+ bullets "" ""
            ((λ plugin, Py.replace plugin "Custom Plugin: " "") <$> custom_plugins)
  end.

(** A section that lists a whole set under a heading when it is not empty. *)
Definition set_section (heading before after : string) (s : gset string)
  : string :=
  match set_iter s with
  | [] => ""
  | items => nl +:+ nl +:+ heading +:+ bullets before after items
  end.

Definition data_attributes_section (self : analyzer) : string :=
  match set_iter (custom_data_attributes self) with
  | [] => ""
  | items =>
      nl +:+ nl +:+ "Custom Data Attributes:"
      +:+ bullets "" "" (take 10 items)
      +:+ overflow_line 10 (size (custom_data_attributes self))
  end.

Definition ajax_section (self : analyzer) : string :=
  set_section "AJAX Calls (Potential Custom Features):" "" "" (ajax_calls self).

Definition other_indicators_section (self : analyzer) : string :=
  match filter (λ item, ¬ Is_true (is_custom_plugin item))
               (custom_code_indicators self) with
  | [] => ""
  | custom_code_without_plugins =>
      nl +:+ nl +:+ "Other Custom Code Indicators:"
      +:+ bullets "" "" (take 5 custom_code_without_plugins)
      +:+ overflow_line 5 (length custom_code_without_plugins)
  end.

Definition is_plugin_specific_class (cls : string) : bool :=
  existsb (Py.startswith cls) ["wc-"; "yith-"; "elementor-"; "wp-block-"].

Definition css_classes_section (self : analyzer) : string :=
  match set_iter (css_classes self) with
  | _ :: _ =>
      if verbose self then
        let plugin_specific_classes :=
          filter (λ cls, Is_true (is_plugin_specific_class cls))
                 (set_iter (css_classes self)) in
        nl +:+ nl +:+ css_heading
        +:+ bullets "" "" (take 20 plugin_specific_classes)
        +:+ overflow_line 20 (length plugin_specific_classes)
      else ""
  | [] => ""
  end.

Definition generate_report (self : analyzer) : string :=
  report_header self
  +:+ plugins_section self
  +:+ theme_section self
  +:+ custom_plugins_section self
  +:+ set_section blocks_heading "" "" (gutenberg_blocks self)
  +:+ set_section post_types_heading "" "" (custom_post_types self)
  +:+ set_section rest_heading "wp-json/" "" (rest_endpoints self)
  +:+ set_section shortcodes_heading "[" "]" (shortcodes self)
  +:+ nl +:+ nl +:+ custom_heading
  +:+ data_attributes_section self
  +:+ ajax_section self
  +:+ other_indicators_section self
  +:+ css_classes_section self
  +:+ nl +:+ nl +:+ closing_line.

End report.

(** ** A runtime and sample sites for the examples

    The sample pages only hold absolute [https] links with a host and no
    JSON script, so all that the examples use of the libraries is that
    [urljoin] returns such an href unchanged and that [netloc] is the part
    between the scheme and the next [/], [?] or [#]. *)

Module Sample.

Fixpoint until_delimiter (s : string) : string :=
  match s with
  | EmptyString => EmptyString
  | String c s' =>
      if one_of ["/"%char; "?"%char; "#"%char] c then EmptyString
      else String c (until_delimiter s')
  end.

Definition sample_netloc (url : string) : string :=
  if Py.startswith url "https://" then
    until_delimiter (String.substring 8 (String.length url) url)
  else if Py.startswith url "http://" then
    until_delimiter (String.substring 7 (String.length url) url)
  else "".

#[export] Instance runtime : PyRuntime := {|
  urljoin := λ base href, href;
  netloc := sample_netloc;
  json_loads_str := λ _, None;
  set_iter := λ A _ _ s, elements s;
  set_iter_perm := λ A _ _ s, reflexivity (elements s)
|}.

Definition anchor (href : string) : Bs4.node :=
  Bs4.Tag "a" None [("href", href)] [].

Definition page_of_links (hrefs : list string) : Bs4.soup :=
  [Bs4.Tag "html" None [] [Bs4.Tag "body" None [] (anchor <$> hrefs)]].

Definition home : string := "https://shop.test".
Definition url_a : string := "https://shop.test/a".
Definition url_b : string := "https://shop.test/b".
Definition url_c : string := "https://shop.test/c".

(** The homepage links to [a] and [b], [a] links to [c]; [b] and [c] answer
    404. *)
Definition site_with_dead_links : network :=
  λ _ url,
    if String.eqb url home then HttpResponse 200 (page_of_links [url_a; url_b])
    else if String.eqb url url_a then HttpResponse 200 (page_of_links [url_c])
    else HttpResponse 404 [].

(** The homepage links to [a] twice; every request but the one for the
    homepage raises. *)
Definition site_behind_flaky_network : network :=
  λ _ url,
    if String.eqb url home then HttpResponse 200 (page_of_links [url_a; url_a])
    else RequestError.

(** A one-page site whose only theme asset belongs to [my-theme-child]. *)
Definition child_theme_page : Bs4.soup :=
  [Bs4.Tag "html" None []
     [Bs4.Tag "head" None []
        [Bs4.Tag "script" None
           [("src", "https://shop.test/wp-content/themes/my-theme-child/js/app.js")]
           []]]].

Definition child_theme_site : network :=
  λ _ url, HttpResponse 200 child_theme_page.

(** A page with an asset of a plugin named after the site, which
    [detect_plugins_from_html] reports as a custom plugin, and an inline
    script of more than 100 characters, which
    [detect_custom_functionality] reports as custom JS. *)
Definition long_script : string :=
  "var settings = { currency: 'EUR', locale: 'de', " +:+
  "shipping: 'flat', taxes: 'included', coupons: 'enabled', stock: 'tracked' };".

Definition mixed_page : Bs4.soup :=
  [Bs4.Tag "html" None []
     [Bs4.Tag "head" None []
        [Bs4.Tag "script" None
           [("src", "https://shop.test/wp-content/plugins/popup-maker/js/site.js")]
           [];
         Bs4.Tag "script" None []
           [Bs4.NavigableString Bs4.PlainString long_script]]]].

(** A finished analyzer, in verbose mode, that found WooCommerce through
    four assets. *)
Definition four_sources : analyzer :=
  set_plugins_detected
    {[ ("woocommerce", "https://shop.test/wp-content/plugins/woocommerce/a.js");
       ("woocommerce", "https://shop.test/wp-content/plugins/woocommerce/b.js");
       ("woocommerce", "https://shop.test/wp-content/plugins/woocommerce/c.js");
       ("woocommerce", "https://shop.test/wp-content/plugins/woocommerce/d.js") ]}
    (init home 5 true).

(** A finished analyzer with fifteen custom data attributes. *)
Definition fifteen_attributes : analyzer :=
  set_custom_data_attributes
    (list_to_set
       ((λ n : nat, "data-id=" +:+ pretty n) <$> seq 0 15))
    (init home 5 false).

End Sample.

(** * Properties *)

(** ** Loops as folds *)

Lemma foldl_rel {A B} (R : A → A → Prop) (f : A → B → A) (l : list B) :
  (∀ a1 a2 b, b ∈ l → R a1 a2 → R (f a1 b) (f a2 b)) →
  ∀ a1 a2, R a1 a2 → R (foldl f a1 l) (foldl f a2 l).
Proof.
  induction l as [|b l IH]; intros Hf a1 a2 HR; simpl; [done|].
  apply IH.
  - intros ? ? b' Hb'. apply Hf. by right.
  - apply Hf; [by left|done].
Qed.

Lemma foldl_inv {A B} (P : A → Prop) (f : A → B → A) (l : list B) :
  (∀ a b, b ∈ l → P a → P (f a b)) → ∀ a, P a → P (foldl f a l).
Proof.
  intros Hf a Ha.
  apply (foldl_rel (λ _ x, P x) f l (λ _ x b Hb, Hf x b Hb) a a Ha).
Qed.

(** ** What the detectors do to a pair of analyzers

    A relation between two analyzers that every elementary update of a
    detector keeps, when the same update is made on both sides, is kept by
    the whole detector run on the same page.  With a relation that ignores
    its first argument this gives invariants of a single run. *)

Section html_detector_rel.
Context (R : analyzer → analyzer → Prop).
Context (R_plugin : ∀ x s1 s2, R s1 s2 → R (add_plugin x s1) (add_plugin x s2)).
Context (R_indicator :
  ∀ x s1 s2, R s1 s2 → R (append_indicator x s1) (append_indicator x s2)).
Context (R_css : ∀ x s1 s2, R s1 s2 → R (add_css_class x s1) (add_css_class x s2)).
Context (R_block :
  ∀ x s1 s2, R s1 s2 → R (add_gutenberg_block x s1) (add_gutenberg_block x s2)).
Context (R_post_type :
  ∀ x s1 s2, R s1 s2 → R (add_custom_post_type x s1) (add_custom_post_type x s2)).
Context (R_theme :
  ∀ u s1 s2, R s1 s2 → R (check_asset_theme u s1) (check_asset_theme u s2)).

Lemma scan_asset_rel key marker label tag s1 s2 :
  R s1 s2 →
  R (scan_asset key marker label s1 tag) (scan_asset key marker label s2 tag).
Proof.
  intros H. unfold scan_asset, check_asset_id, _check_asset_for_plugin.
  assert (R (check_asset_plugin (default "" (Bs4.get tag key)) s1)
            (check_asset_plugin (default "" (Bs4.get tag key)) s2)) as H'.
  { unfold check_asset_plugin. repeat case_match; auto. }
  repeat case_match; auto.
Qed.

Lemma scan_classed_tag_rel tag s1 s2 :
  R s1 s2 → R (scan_classed_tag s1 tag) (scan_classed_tag s2 tag).
Proof.
  intros H. unfold scan_classed_tag. apply foldl_rel; [|done].
  intros a1 a2 cls _ Ha. unfold scan_css_class. apply foldl_rel; [|auto].
  intros b1 b2 pat _ Hb.
  unfold scan_class_pattern, _add_potential_plugin_from_pattern.
  repeat case_match; auto.
Qed.

Lemma scan_comment_rel comment s1 s2 :
  R s1 s2 → R (scan_comment s1 comment) (scan_comment s2 comment).
Proof. intros H. unfold scan_comment. repeat case_match; auto. Qed.

Lemma scan_block_rel block s1 s2 :
  R s1 s2 → R (scan_block s1 block) (scan_block s2 block).
Proof. intros H. unfold scan_block. repeat case_match; auto. Qed.

Lemma scan_post_type_rel link s1 s2 :
  R s1 s2 → R (scan_post_type s1 link) (scan_post_type s2 link).
Proof. intros H. unfold scan_post_type. repeat case_match; auto. Qed.

Lemma scan_meta_rel meta s1 s2 :
  R s1 s2 → R (scan_meta s1 meta) (scan_meta s2 meta).
Proof. intros H. unfold scan_meta. repeat case_match; auto. Qed.

Lemma scan_signatures_rel doc s1 s2 :
  R s1 s2 → R (scan_signatures doc s1) (scan_signatures doc s2).
Proof. intros H. unfold scan_signatures. repeat case_match; auto. Qed.

Lemma detect_plugins_from_html_rel doc url s1 s2 :
  R s1 s2 →
  R (detect_plugins_from_html doc url s1) (detect_plugins_from_html doc url s2).
Proof.
  intros H. unfold detect_plugins_from_html. cbv zeta.
  apply scan_signatures_rel.
  apply foldl_rel; [intros; by apply scan_meta_rel|].
  apply foldl_rel; [intros; by apply scan_post_type_rel|].
  apply foldl_rel; [intros; by apply scan_block_rel|].
  apply foldl_rel; [intros; by apply scan_comment_rel|].
  apply foldl_rel; [intros; by apply scan_classed_tag_rel|].
  apply foldl_rel; [intros; by apply scan_asset_rel|].
  apply foldl_rel; [intros; by apply scan_asset_rel|].
  done.
Qed.

End html_detector_rel.

Section custom_detector_rel.
Context `{rt : PyRuntime}.
Context (R : analyzer → analyzer → Prop).
Context (R_attribute :
  ∀ x s1 s2, R s1 s2 →
    R (add_custom_data_attribute x s1) (add_custom_data_attribute x s2)).
Context (R_ajax : ∀ x s1 s2, R s1 s2 → R (add_ajax_call x s1) (add_ajax_call x s2)).
Context (R_rest :
  ∀ x s1 s2, R s1 s2 → R (add_rest_endpoint x s1) (add_rest_endpoint x s2)).
Context (R_shortcode :
  ∀ x s1 s2, R s1 s2 → R (add_shortcode x s1) (add_shortcode x s2)).
Context (R_indicator :
  ∀ x s1 s2, R s1 s2 → R (append_indicator x s1) (append_indicator x s2)).

Lemma scan_data_attributes_rel tag s1 s2 :
  R s1 s2 → R (scan_data_attributes s1 tag) (scan_data_attributes s2 tag).
Proof.
  intros H. unfold scan_data_attributes. apply foldl_rel; [|done].
  intros a1 a2 attr _ Ha. unfold scan_attr. repeat case_match; auto.
Qed.

Lemma scan_script_text_rel script s1 s2 :
  R s1 s2 → R (scan_script_text s1 script) (scan_script_text s2 script).
Proof.
  intros H. unfold scan_script_text. case_match; [|done].
  unfold scan_shortcodes. apply foldl_rel; [auto|].
  unfold scan_rest, scan_ajax. repeat case_match; auto.
Qed.

Lemma scan_json_block_rel script s1 s2 :
  R s1 s2 → R (scan_json_block s1 script) (scan_json_block s2 script).
Proof. intros H. unfold scan_json_block. repeat case_match; auto. Qed.

Lemma scan_inline_script_rel script s1 s2 :
  R s1 s2 → R (scan_inline_script s1 script) (scan_inline_script s2 script).
Proof. intros H. unfold scan_inline_script. repeat case_match; auto. Qed.

Lemma detect_custom_functionality_rel doc s1 s2 :
  R s1 s2 →
  R (detect_custom_functionality doc s1) (detect_custom_functionality doc s2).
Proof.
  intros H. unfold detect_custom_functionality. cbv zeta.
  apply foldl_rel; [intros; by apply scan_inline_script_rel|].
  apply foldl_rel; [intros; by apply scan_json_block_rel|].
  apply foldl_rel; [intros; by apply scan_script_text_rel|].
  apply foldl_rel; [intros; by apply scan_data_attributes_rel|].
  done.
Qed.

End custom_detector_rel.

(** ** The fields the detectors leave alone *)

(** Any reading [F] of the analyzer that the six updates of
    [detect_plugins_from_html] leave unchanged is left unchanged by it. *)
Lemma detect_plugins_from_html_keeps {T} (F : analyzer → T) doc url s :
  (∀ x s, F (add_plugin x s) = F s) →
  (∀ x s, F (append_indicator x s) = F s) →
  (∀ x s, F (add_css_class x s) = F s) →
  (∀ x s, F (add_gutenberg_block x s) = F s) →
  (∀ x s, F (add_custom_post_type x s) = F s) →
  (∀ x s, F (add_theme x s) = F s) →
  F (detect_plugins_from_html doc url s) = F s.
Proof.
  intros H1 H2 H3 H4 H5 H6.
  apply (detect_plugins_from_html_rel (λ _ s', F s' = F s));
    try (intros; congruence).
  intros u _ s2 Hs. unfold check_asset_theme.
  repeat case_match; rewrite ?H6; done.
Qed.

Lemma detect_custom_functionality_keeps `{rt : PyRuntime} {T}
    (F : analyzer → T) doc s :
  (∀ x s, F (add_custom_data_attribute x s) = F s) →
  (∀ x s, F (add_ajax_call x s) = F s) →
  (∀ x s, F (add_rest_endpoint x s) = F s) →
  (∀ x s, F (add_shortcode x s) = F s) →
  (∀ x s, F (append_indicator x s) = F s) →
  F (detect_custom_functionality doc s) = F s.
Proof.
  intros H1 H2 H3 H4 H5.
  apply (detect_custom_functionality_rel (λ _ s', F s' = F s));
    intros; congruence.
Qed.

(** The configuration and the visited set are not touched by the
    detectors. *)
Definition crawl_fields (s : analyzer) : string * Z * bool * gset string :=
  (base_url s, max_pages s, verbose s, visited_urls s).

Lemma detect_plugins_from_html_crawl_fields doc url s :
  crawl_fields (detect_plugins_from_html doc url s) = crawl_fields s.
Proof. by apply detect_plugins_from_html_keeps. Qed.

Lemma detect_custom_functionality_crawl_fields `{rt : PyRuntime} doc s :
  crawl_fields (detect_custom_functionality doc s) = crawl_fields s.
Proof. by apply detect_custom_functionality_keeps. Qed.

(** ** The page fetcher *)

Lemma fetch_page_visited net url p :
  url ∈ visited_urls (self_of p) → fetch_page net url p = (None, p).
Proof. intros H. unfold fetch_page. by rewrite bool_decide_eq_true_2. Qed.

(** What a fetch of a URL that is not yet visited does, by the answer of
    the network. *)
Lemma fetch_page_fresh net url p :
  url ∉ visited_urls (self_of p) →
  fetch_page net url p =
    match net (length (session_log p)) url with
    | RequestError =>
        (None, mk_process (self_of p) (session_log p ++ [url]))
    | HttpResponse status_code page =>
        (if (status_code =? 200)%Z then Some page else None,
         mk_process (add_visited_url url (self_of p)) (session_log p ++ [url]))
    | HttpUnparsable =>
        (None,
         mk_process (add_visited_url url (self_of p)) (session_log p ++ [url]))
    end.
Proof.
  intros H. unfold fetch_page. rewrite bool_decide_eq_false_2 by done.
  destruct (net _ url) as [code page| |]; [|done..].
  by destruct (code =? 200)%Z.
Qed.

(** A fetch changes nothing of the analyzer but the visited set, which can
    only gain the URL, and adds at most the URL to the log. *)
Lemma fetch_page_effect net url p soup p' :
  fetch_page net url p = (soup, p') →
  (self_of p' = self_of p ∨ self_of p' = add_visited_url url (self_of p))
  ∧ (session_log p' = session_log p ∨ session_log p' = (session_log p ++ [url])).
Proof.
  unfold fetch_page. case_bool_decide; [intros [= <- <-]; auto|].
  destruct (net _ url) as [code page| |]; [destruct (code =? 200)%Z| |];
    intros [= <- <-]; simpl; auto.
Qed.

Lemma fetch_page_max_pages net url p soup p' :
  fetch_page net url p = (soup, p') →
  max_pages (self_of p') = max_pages (self_of p).
Proof.
  intros H. destruct (fetch_page_effect _ _ _ _ _ H) as [[->| ->] _]; done.
Qed.

(** ** The crawl loop *)

Section crawl_facts.
Context `{rt : PyRuntime}.

Lemma analyze_page_crawl_fields soup url pv s s' links :
  analyze_page soup url pv s = (s', links) →
  crawl_fields s' = crawl_fields s.
Proof.
  unfold analyze_page. cbv zeta.
  set (s1 := detect_custom_functionality _ _).
  assert (crawl_fields s1 = crawl_fields s) as Hs1.
  { unfold s1. rewrite detect_custom_functionality_crawl_fields.
    apply detect_plugins_from_html_crawl_fields. }
  case_match; intros [= <- <-]; done.
Qed.

Lemma analyze_page_max_pages soup url pv s s' links :
  analyze_page soup url pv s = (s', links) → max_pages s' = max_pages s.
Proof.
  intros H%analyze_page_crawl_fields. unfold crawl_fields in H. congruence.
Qed.

Lemma list_slice_to_length {A} (k : Z) (l : list A) :
  (0 ≤ k)%Z → (Z.of_nat (length (Py.list_slice_to k l)) ≤ k)%Z.
Proof.
  intros Hk. unfold Py.list_slice_to.
  rewrite (proj2 (Z.leb_le 0 k)) by done. rewrite length_take. lia.
Qed.

(** The links queued after a page are at most the budget left. *)
Lemma analyze_page_links soup url pv s s' links :
  analyze_page soup url pv s = (s', links) →
  (Z.of_nat (length links) ≤ Z.max 0 (max_pages s - pv))%Z.
Proof.
  intros H. pose proof (analyze_page_max_pages _ _ _ _ _ _ H) as Hmax.
  revert H. unfold analyze_page. cbv zeta.
  set (s1 := detect_custom_functionality _ _).
  destruct (pv <? max_pages s1)%Z eqn:Hlt; intros [= <- <-]; simpl; [|lia].
  apply Z.ltb_lt in Hlt.
  etrans; [apply list_slice_to_length; lia|]. lia.
Qed.

Lemma crawl_nil net budget pv az p :
  crawl net budget pv az p [] = mk_loop_state p pv [] az.
Proof. by destruct budget. Qed.

Lemma crawl_cons net budget pv az p current_url rest :
  crawl net budget pv az p (current_url :: rest) =
    if (pv <? max_pages (self_of p))%Z then
      match fetch_page net current_url p with
      | (None, p) => crawl net budget pv az p rest
      | (Some soup, p) =>
          match budget with
          | O => mk_loop_state p pv rest az
          | S budget' =>
              let '(self, new_links) :=
                analyze_page soup current_url (pv + 1) (self_of p) in
              crawl net budget' (pv + 1) (az ++ [soup])
                    (on_self (λ _, self) p) (rest ++ new_links)
          end
      end
    else mk_loop_state p pv (current_url :: rest) az.
Proof. by destruct budget. Qed.

(** The recursive [crawl] is the [while] loop: it is a finite number of
    turns of the loop, after which the loop condition is false. *)
Lemma crawl_turns net budget :
  ∀ pv az p urls,
    (Z.to_nat (max_pages (self_of p) - pv) ≤ budget)%nat →
    ∃ k, crawl net budget pv az p urls
         = Nat.iter k (loop_turn net) (mk_loop_state p pv urls az)
       ∧ loop_condition (crawl net budget pv az p urls) = false.
Proof.
  induction budget as [|budget IHb]; intros pv az p urls; revert p;
    induction urls as [|u rest IHq]; intros p Hb.
  1,3: exists 0%nat; by rewrite crawl_nil.
  all: rewrite crawl_cons.
  all: destruct (pv <? max_pages (self_of p))%Z eqn:Hlt;
    [|exists 0%nat; split; [done|]; unfold loop_condition; by simpl].
  all: destruct (fetch_page net u p) as [[soup|] p'] eqn:Hf.
  all: pose proof (fetch_page_max_pages _ _ _ _ _ Hf) as Hmax.
  all: assert (loop_turn net (mk_loop_state p pv (u :: rest) az)
               = loop_body net (mk_loop_state p pv (u :: rest) az)) as Hturn
    by (unfold loop_turn, loop_condition; simpl; by rewrite Hlt).
  - apply Z.ltb_lt in Hlt. lia.
  - destruct (IHq p') as (k & Hk & Hc); [lia|].
    exists (S k). rewrite Nat.iter_succ_r, Hturn. unfold loop_body. simpl.
    by rewrite Hf.
  - destruct (analyze_page soup u (pv + 1) (self_of p')) as [s' links] eqn:Ha.
    pose proof (analyze_page_max_pages _ _ _ _ _ _ Ha) as Hmax'.
    destruct (IHb (pv + 1)%Z (az ++ [soup]) (on_self (λ _, s') p')
                  (rest ++ links)) as (k & Hk & Hc).
    { simpl. apply Z.ltb_lt in Hlt. lia. }
    exists (S k). rewrite Nat.iter_succ_r, Hturn. unfold loop_body. simpl.
    by rewrite Hf, Ha.
  - destruct (IHq p') as (k & Hk & Hc); [lia|].
    exists (S k). rewrite Nat.iter_succ_r, Hturn. unfold loop_body. simpl.
    by rewrite Hf.
Qed.

End crawl_facts.

Section crawl_invariants.
Context `{rt : PyRuntime}.

Lemma normalize_base_url_max_pages self :
  max_pages (normalize_base_url self) = max_pages self.
Proof. unfold normalize_base_url. by case_match. Qed.

Lemma crawl_site_turns net self :
  ∃ k, crawl_site net self = Nat.iter k (loop_turn net) (start self)
     ∧ loop_condition (crawl_site net self) = false.
Proof.
  unfold crawl_site. cbv zeta.
  destruct (crawl_turns net (Z.to_nat (max_pages self))
              (pages_visited (start self)) (analyzed (start self))
              (proc (start self)) (urls_to_visit (start self)))
    as (k & Hk & Hc).
  { simpl. rewrite normalize_base_url_max_pages. lia. }
  exists k. split; [|done]. rewrite Hk. by destruct (start self).
Qed.

(** Induction over a run: what holds at the start and is kept by every
    iteration of the loop body holds when the loop ends. *)
Lemma crawl_site_ind net self (P : loop_state → Prop) :
  P (start self) →
  (∀ st, loop_condition st = true → P st → P (loop_body net st)) →
  P (crawl_site net self).
Proof.
  intros H0 Hstep. destruct (crawl_site_turns net self) as (k & -> & _).
  induction k as [|k IH]; [done|]. simpl.
  unfold loop_turn at 1. case_match; auto.
Qed.

(** The shape of an iteration: the head of the queue is fetched; a failed
    fetch only drops it, a successful one counts a page, runs the detectors
    and queues the links [analyze_page] returns. *)
Lemma loop_body_cases net st :
  loop_condition st = true →
  ∃ current_url rest soup p,
    urls_to_visit st = current_url :: rest
    ∧ (pages_visited st < max_pages (self_of (proc st)))%Z
    ∧ fetch_page net current_url (proc st) = (soup, p)
    ∧ match soup with
      | None =>
          loop_body net st
          = mk_loop_state p (pages_visited st) rest (analyzed st)
      | Some page =>
          ∃ self new_links,
            analyze_page page current_url (pages_visited st + 1) (self_of p)
            = (self, new_links)
            ∧ loop_body net st
              = mk_loop_state (on_self (λ _, self) p) (pages_visited st + 1)
                  (rest ++ new_links) (analyzed st ++ [page])
      end.
Proof.
  unfold loop_condition, loop_body.
  destruct (urls_to_visit st) as [|u rest]; [done|].
  intros Hlt%Z.ltb_lt.
  destruct (fetch_page net u (proc st)) as [[page|] p] eqn:Hf.
  - exists u, rest, (Some page), p. split_and!; [done..|].
    destruct (analyze_page page u (pages_visited st + 1) (self_of p))
      as [s' links] eqn:Ha.
    by exists s', links.
  - exists u, rest, None, p. by split_and!.
Qed.

(** The quantity that bounds a run: twice the fetch attempts made plus the
    URLs still queued, against the pages analyzed so far. *)
Definition within_budget (N : Z) (st : loop_state) : Prop :=
  max_pages (self_of (proc st)) = N
  ∧ (0 ≤ pages_visited st ≤ Z.max 0 N)%Z
  ∧ Z.of_nat (length (analyzed st)) = pages_visited st
  ∧ (2 * (Z.of_nat (length (session_log (proc st)))
          + Z.of_nat (length (urls_to_visit st)))
     ≤ 2 + pages_visited st * (2 * N - pages_visited st - 1))%Z.

Lemma loop_body_within_budget net N st :
  loop_condition st = true → within_budget N st →
  within_budget N (loop_body net st).
Proof.
  intros Hc (Hmax & Hpv & Haz & Hq).
  destruct (loop_body_cases net st Hc) as (u & rest & soup & p & Hu & Hlt & Hf & Hb).
  pose proof (fetch_page_max_pages _ _ _ _ _ Hf) as Hmax'.
  destruct (fetch_page_effect _ _ _ _ _ Hf) as [_ Hlog].
  assert (Z.of_nat (length (session_log p))
          ≤ Z.of_nat (length (session_log (proc st))) + 1)%Z as Hlen.
  { destruct Hlog as [-> | ->]; rewrite ?length_app; simpl; lia. }
  rewrite Hu in Hq. simpl in Hq.
  destruct soup as [page|].
  - destruct Hb as (s' & links & Ha & ->).
    pose proof (analyze_page_max_pages _ _ _ _ _ _ Ha) as Hmax''.
    pose proof (analyze_page_links _ _ _ _ _ _ Ha) as Hlinks.
    unfold within_budget. simpl. rewrite !length_app. simpl.
    split_and!; [lia..|nia].
  - rewrite Hb. unfold within_budget. simpl. repeat split; try lia.
Qed.

Lemma crawl_site_within_budget net self :
  within_budget (max_pages self) (crawl_site net self).
Proof.
  apply crawl_site_ind; [|intros; by apply loop_body_within_budget].
  unfold within_budget, start. simpl.
  rewrite normalize_base_url_max_pages. repeat split; lia.
Qed.

End crawl_invariants.

(** ** The page budget (C1) *)

(** C1, as the code has it.  For every page budget [N >= 0] and every
    network, a run analyzes at most [N] pages: [pages_visited], which the
    loop compares with the budget, counts the successful fetches only (it
    is the number of pages that went through the detectors).  Failed
    fetches are not counted, so the fetch attempts of a run are not bounded
    by [N]; they are bounded by the number of URLs ever queued, at most
    [1 + N * (N - 1) / 2]. *)
Theorem analyzed_pages_within_budget `{rt : PyRuntime}
    (net : network) (self : analyzer) :
  (0 ≤ max_pages self)%Z →
  (pages_visited (crawl_site net self) ≤ max_pages self)%Z
  ∧ Z.of_nat (length (analyzed (crawl_site net self)))
    = pages_visited (crawl_site net self)
  ∧ (2 * Z.of_nat (length (session_log (proc (crawl_site net self))))
     ≤ 2 + max_pages self * (max_pages self - 1))%Z.
Proof.
  intros HN.
  destruct (crawl_site_within_budget net self) as (_ & Hpv & Haz & Hq).
  split_and!; [lia|done|].
  assert (0 ≤ (max_pages self - pages_visited (crawl_site net self))
              * (max_pages self - pages_visited (crawl_site net self) - 1))%Z
    by (destruct (decide (max_pages self = pages_visited (crawl_site net self)));
        nia).
  nia.
Qed.

Lemma analyzed_pages_within_budget_witness :
  (pages_visited
     (crawl_site (rt := Sample.runtime) Sample.site_with_dead_links (init Sample.home 3 false))
   ≤ 3)%Z.
Proof.
  apply (analyzed_pages_within_budget (rt := Sample.runtime)
           Sample.site_with_dead_links
           (init Sample.home 3 false)).
  simpl. lia.
Defined.

(** C1 as stated fails: with budget 3, a homepage that links to [a] and
    [b], [a] that links to [c], and [b] and [c] answering 404, the run
    makes four fetch attempts. *)
Lemma fetch_attempts_exceed_budget :
  ¬ (Z.of_nat
       (length (session_log
                  (proc (crawl_site (rt := Sample.runtime) Sample.site_with_dead_links
                                    (init Sample.home 3 false)))))
     ≤ max_pages (init Sample.home 3 false))%Z.
Proof. intros H. vm_compute in H. by apply H. Qed.

(** ** The frontier (C4) *)

(** C4, as the code has it.  Every iteration of the loop removes the head
    of the frontier and fetches it.  After a failed fetch nothing is queued:
    the frontier is the rest of the queue, and [pages_visited] is as it
    was.  After a successful fetch the page is counted, and the links
    queued behind the rest are the first [max_pages - pages_visited] links
    that [extract_links] finds on the page, so they are at most the budget
    left after the page.  The bound is on what one page adds, not on the
    frontier as a whole. *)
Theorem links_queued_within_remaining_budget `{rt : PyRuntime}
    (net : network) (st : loop_state) :
  loop_condition st = true →
  ∃ current_url rest,
    urls_to_visit st = current_url :: rest
    ∧ match (fetch_page net current_url (proc st)).1 with
      | None =>
          urls_to_visit (loop_body net st) = rest
          ∧ pages_visited (loop_body net st) = pages_visited st
      | Some page =>
          ∃ new_links,
            urls_to_visit (loop_body net st) = rest ++ new_links
            ∧ pages_visited (loop_body net st) = (pages_visited st + 1)%Z
            ∧ new_links
              = take (Z.to_nat (max_pages (self_of (proc st))
                                - pages_visited (loop_body net st)))
                     (extract_links page current_url
                        (self_of (proc (loop_body net st))))
            ∧ (Z.of_nat (length new_links)
               ≤ max_pages (self_of (proc st))
                 - pages_visited (loop_body net st))%Z
      end.
Proof.
  intros Hc.
  destruct (loop_body_cases net st Hc)
    as (u & rest & soup & p & Hu & Hlt & Hf & Hb).
  exists u, rest. split; [done|]. rewrite Hf. simpl.
  destruct soup as [page|]; [|by rewrite Hb].
  destruct Hb as (s' & links & Ha & ->). exists links. simpl.
  pose proof (analyze_page_links _ _ _ _ _ _ Ha) as Hlinks.
  pose proof (fetch_page_max_pages _ _ _ _ _ Hf) as Hmax.
  rewrite Hmax in Hlinks. split_and!; [done|done| |lia].
  revert Ha. unfold analyze_page. cbv zeta.
  set (s1 := detect_custom_functionality _ _).
  assert (max_pages s1 = max_pages (self_of p)) as Hs1.
  { assert (crawl_fields s1 = crawl_fields (self_of p)) as Hcf.
    { unfold s1. rewrite detect_custom_functionality_crawl_fields.
      apply detect_plugins_from_html_crawl_fields. }
    unfold crawl_fields in Hcf. congruence. }
  rewrite Hs1, Hmax.
  destruct (pages_visited st + 1 <? max_pages (self_of (proc st)))%Z eqn:Hlt';
    intros [= <- <-].
  - apply Z.ltb_lt in Hlt'. unfold Py.list_slice_to.
    by rewrite (proj2 (Z.leb_le 0 _)) by lia.
  - apply Z.ltb_ge in Hlt'.
    replace (Z.to_nat _) with 0%nat by lia. done.
Qed.

Lemma links_queued_within_remaining_budget_witness :
  ∃ new_links,
    urls_to_visit
      (loop_body (rt := Sample.runtime) Sample.site_with_dead_links
                 (start (init Sample.home 3 false)))
    = [] ++ new_links
    ∧ (Z.of_nat (length new_links) ≤ 2)%Z.
Proof.
  destruct (links_queued_within_remaining_budget (rt := Sample.runtime)
              Sample.site_with_dead_links
              (start (init Sample.home 3 false)) eq_refl)
    as (u & rest & [= <- <-] & links & H1 & _ & _ & H2).
  exists links. split; [exact H1|]. vm_compute in H2. exact H2.
Defined.

(** C4 as stated fails: in the run above, after two turns of the loop (the
    homepage and [a] analyzed) the budget leaves room for one more page and
    the frontier holds two URLs, [b] and [c]. *)
Lemma frontier_exceeds_remaining_budget :
  ¬ (Z.of_nat
       (length (urls_to_visit
                  (Nat.iter 2 (loop_turn (rt := Sample.runtime) Sample.site_with_dead_links)
                            (start (init Sample.home 3 false)))))
     ≤ max_pages (init Sample.home 3 false)
       - pages_visited
           (Nat.iter 2 (loop_turn (rt := Sample.runtime) Sample.site_with_dead_links)
                     (start (init Sample.home 3 false))))%Z.
Proof. intros H. vm_compute in H. by apply H. Qed.

(** ** Termination and the report (C5) *)

Lemma append_assoc (a b c : string) : (a +:+ b) +:+ c = a +:+ b +:+ c.
Proof.
  induction a as [|x a IH]; [done|].
  change (String x ((a +:+ b) +:+ c) = String x (a +:+ b +:+ c)).
  by rewrite IH.
Qed.

Lemma append_empty_l (s : string) : "" +:+ s = s.
Proof. done. Qed.

Lemma set_iter_empty `{rt : PyRuntime} `{Countable A} :
  set_iter (∅ : gset A) = [].
Proof.
  apply Permutation_nil_r. rewrite set_iter_perm. by rewrite elements_empty.
Qed.

(** *** Exceptions of the URL functions

    [urljoin] and [urlparse] raise [ValueError] on some malformed URLs (a
    host with an opening bracket that is not closed, as in "http://[::1").
    [extract_links] calls them outside any [try], and [analyze_site] calls
    [extract_links] outside any [try]: the exception ends the run, and
    [main] prints no report.  [extract_links], [analyze_page], [crawl] and
    [analyze_site] above are the run as long as these calls return; the
    definitions below add the exception. *)

Class UrlErrors : Type := {
  (** [urljoin(base, href)] raises *)
  urljoin_raises : string → string → bool;
  (** [urlparse(url)] raises *)
  urlparse_raises : string → bool
}.

(** What a call gives: a value, or an exception that nothing caught. *)
Inductive outcome (A : Type) : Type :=
  | Returned (a : A)
  | Raised.
Arguments Returned {A} a.
Arguments Raised {A}.

Section crawl_with_exceptions.
Context `{rt : PyRuntime} `{errs : UrlErrors}.

(** Body of [for a_tag in soup.find_all("a", href=True)], with the two
    library calls that open it. *)
Definition scan_anchor_exc (current_url : string) (self : analyzer)
    (internal_links : outcome (list string)) (a_tag : Bs4.node)
  : outcome (list string) :=
  match internal_links with
  | Raised => Raised
  | Returned internal_links =>
      let href := default "" (Bs4.get a_tag "href") in
      if urljoin_raises current_url href then Raised
      else if urlparse_raises (urljoin current_url href) then Raised
      else Returned (scan_anchor current_url self internal_links a_tag)
  end.

(** [extract_links], from [domain = urlparse(self.base_url).netloc] on. *)
Definition extract_links_exc (doc : Bs4.soup) (current_url : string)
    (self : analyzer) : outcome (list string) :=
  if urlparse_raises (base_url self) then Raised
  else foldl (scan_anchor_exc current_url self) (Returned [])
             (Bs4.find_all_with doc "a" "href").

Definition analyze_page_exc (soup : Bs4.soup) (current_url : string)
    (pages_visited : Z) (self : analyzer) : outcome (analyzer * list string) :=
  let self := detect_plugins_from_html soup current_url self in
  let self := detect_custom_functionality soup self in
  if (pages_visited <? max_pages self)%Z then
    match extract_links_exc soup current_url self with
    | Returned new_links =>
        Returned
          (self, Py.list_slice_to (max_pages self - pages_visited) new_links)
    | Raised => Raised
    end
  else Returned (self, []).

Definition loop_body_exc (net : network) (st : loop_state)
  : outcome loop_state :=
  match urls_to_visit st with
  | [] => Returned st
  | current_url :: rest =>
      match fetch_page net current_url (proc st) with
      | (None, p) =>
          Returned (mk_loop_state p (pages_visited st) rest (analyzed st))
      | (Some soup, p) =>
          let pages_visited := (pages_visited st + 1)%Z in
          match analyze_page_exc soup current_url pages_visited (self_of p)
          with
          | Returned (self, new_links) =>
              Returned
                (mk_loop_state (on_self (λ _, self) p) pages_visited
                               (rest ++ new_links) (analyzed st ++ [soup]))
          | Raised => Raised
          end
      end
  end.

(** One turn of the [while]: nothing more happens once an exception is on
    its way out. *)
Definition loop_turn_exc (net : network) (o : outcome loop_state)
  : outcome loop_state :=
  match o with
  | Returned st =>
      if loop_condition st then loop_body_exc net st else Returned st
  | Raised => Raised
  end.

(** The [while] loop, as [crawl] has it, ended also by an exception. *)
Fixpoint crawl_exc (net : network) (budget : nat) (pages_visited : Z)
    (analyzed : list Bs4.soup) (p : process) (urls_to_visit : list string)
    {struct budget} : outcome loop_state :=
  (fix drain (urls_to_visit : list string) (p : process)
       {struct urls_to_visit} : outcome loop_state :=
     match urls_to_visit with
     | [] => Returned (mk_loop_state p pages_visited [] analyzed)
     | current_url :: rest =>
         if (pages_visited <? max_pages (self_of p))%Z then
           match fetch_page net current_url p with
           | (None, p) => drain rest p
           | (Some soup, p) =>
               match budget with
               | O => Returned (mk_loop_state p pages_visited rest analyzed)
               | S budget' =>
                   let pages_visited := (pages_visited + 1)%Z in
                   match analyze_page_exc soup current_url pages_visited
                                          (self_of p) with
                   | Returned (self, new_links) =>
                       crawl_exc net budget' pages_visited (analyzed ++ [soup])
                                 (on_self (λ _, self) p) (rest ++ new_links)
                   | Raised => Raised
                   end
               end
           end
         else Returned (mk_loop_state p pages_visited urls_to_visit analyzed)
     end) urls_to_visit p.

Definition crawl_site_exc (net : network) (self : analyzer)
  : outcome loop_state :=
  let st := start self in
  crawl_exc net (Z.to_nat (max_pages self)) (pages_visited st) (analyzed st)
            (proc st) (urls_to_visit st).

Definition analyze_site_exc (net : network) (self : analyzer)
  : outcome analyzer :=
  match crawl_site_exc net self with
  | Returned st =>
      let self := self_of (proc st) in
      Returned (derive_themes (set_iter (themes_detected self)).*1 self)
  | Raised => Raised
  end.

(** [analyzer.analyze_site(); report = analyzer.generate_report(...)] of
    [main]: the report that is printed, if any. *)
Definition main_report (net : network) (self : analyzer) : outcome string :=
  match analyze_site_exc net self with
  | Returned self => Returned (generate_report self)
  | Raised => Raised
  end.

End crawl_with_exceptions.

Section crawl_with_exceptions_facts.
Context `{rt : PyRuntime} `{errs : UrlErrors}.

Lemma scan_anchors_exc_raised current_url self anchors :
  foldl (scan_anchor_exc current_url self) Raised anchors = Raised.
Proof. by induction anchors. Qed.

Lemma scan_anchors_exc_returned current_url self anchors :
  ∀ internal_links links,
    foldl (scan_anchor_exc current_url self) (Returned internal_links) anchors
    = Returned links →
    links = foldl (scan_anchor current_url self) internal_links anchors.
Proof.
  induction anchors as [|a_tag anchors IH]; intros acc links; simpl.
  { by intros [= <-]. }
  destruct (urljoin_raises _ _); [by rewrite scan_anchors_exc_raised|].
  destruct (urlparse_raises _); [by rewrite scan_anchors_exc_raised|].
  apply IH.
Qed.

Lemma extract_links_exc_returned doc current_url self links :
  extract_links_exc doc current_url self = Returned links →
  links = extract_links doc current_url self.
Proof.
  unfold extract_links_exc, extract_links.
  destruct (urlparse_raises _); [done|]. apply scan_anchors_exc_returned.
Qed.

Lemma analyze_page_exc_returned soup current_url pv self result :
  analyze_page_exc soup current_url pv self = Returned result →
  result = analyze_page soup current_url pv self.
Proof.
  unfold analyze_page_exc, analyze_page. cbv zeta.
  destruct (_ <? _)%Z; [|by intros [= <-]].
  destruct (extract_links_exc _ _ _) as [links|] eqn:Hlinks; [|done].
  apply extract_links_exc_returned in Hlinks as ->. by intros [= <-].
Qed.

(** The calls return on everything. *)
Definition no_url_error : Prop :=
  (∀ base href, urljoin_raises base href = false)
  ∧ (∀ url, urlparse_raises url = false).

Lemma extract_links_exc_no_raise doc current_url self :
  no_url_error →
  extract_links_exc doc current_url self
  = Returned (extract_links doc current_url self).
Proof.
  intros [Hjoin Hparse]. unfold extract_links_exc, extract_links.
  rewrite Hparse. generalize (@nil string).
  induction (Bs4.find_all_with doc "a" "href") as [|a_tag anchors IH];
    intros acc; simpl; [done|].
  by rewrite Hjoin, Hparse, IH.
Qed.

Lemma analyze_page_exc_no_raise soup current_url pv self :
  no_url_error →
  analyze_page_exc soup current_url pv self
  = Returned (analyze_page soup current_url pv self).
Proof.
  intros Hno. unfold analyze_page_exc, analyze_page. cbv zeta.
  destruct (_ <? _)%Z; [|done]. by rewrite extract_links_exc_no_raise.
Qed.

Lemma crawl_exc_nil net budget pv az p :
  crawl_exc net budget pv az p [] = Returned (mk_loop_state p pv [] az).
Proof. by destruct budget. Qed.

Lemma crawl_exc_cons net budget pv az p current_url rest :
  crawl_exc net budget pv az p (current_url :: rest) =
    if (pv <? max_pages (self_of p))%Z then
      match fetch_page net current_url p with
      | (None, p) => crawl_exc net budget pv az p rest
      | (Some soup, p) =>
          match budget with
          | O => Returned (mk_loop_state p pv rest az)
          | S budget' =>
              match analyze_page_exc soup current_url (pv + 1) (self_of p)
              with
              | Returned (self, new_links) =>
                  crawl_exc net budget' (pv + 1) (az ++ [soup])
                            (on_self (λ _, self) p) (rest ++ new_links)
              | Raised => Raised
              end
          end
      end
    else Returned (mk_loop_state p pv (current_url :: rest) az).
Proof. by destruct budget. Qed.

(** When the loop ends without an exception it has done what [crawl]
    says. *)
Lemma crawl_exc_returned net budget :
  ∀ pv az p urls st,
    crawl_exc net budget pv az p urls = Returned st →
    st = crawl net budget pv az p urls.
Proof.
  induction budget as [|budget IHb]; intros pv az p urls; revert p;
    induction urls as [|u rest IHq]; intros p st.
  1,3: rewrite crawl_exc_nil, crawl_nil; by intros [= <-].
  all: rewrite crawl_exc_cons, crawl_cons.
  all: destruct (pv <? max_pages (self_of p))%Z; [|by intros [= <-]].
  all: destruct (fetch_page net u p) as [[soup|] p']; [|by apply IHq].
  - by intros [= <-].
  - destruct (analyze_page_exc soup u (pv + 1) (self_of p'))
      as [[s' links]|] eqn:Ha; [|done].
    apply analyze_page_exc_returned in Ha as <-. apply IHb.
Qed.

Lemma crawl_exc_no_raise net budget :
  no_url_error →
  ∀ pv az p urls,
    crawl_exc net budget pv az p urls
    = Returned (crawl net budget pv az p urls).
Proof.
  intros Hno.
  induction budget as [|budget IHb]; intros pv az p urls; revert p;
    induction urls as [|u rest IHq]; intros p.
  1,3: by rewrite crawl_exc_nil, crawl_nil.
  all: rewrite crawl_exc_cons, crawl_cons.
  all: destruct (pv <? max_pages (self_of p))%Z; [|done].
  all: destruct (fetch_page net u p) as [[soup|] p']; [|by apply IHq].
  - done.
  - rewrite analyze_page_exc_no_raise by done.
    destruct (analyze_page soup u (pv + 1) (self_of p')) as [s' links].
    apply IHb.
Qed.

Lemma analyze_page_exc_max_pages soup url pv s s' links :
  analyze_page_exc soup url pv s = Returned (s', links) →
  max_pages s' = max_pages s.
Proof.
  intros Ha%analyze_page_exc_returned. symmetry in Ha.
  by apply analyze_page_max_pages in Ha.
Qed.

Lemma loop_turn_exc_raised net k :
  Nat.iter k (loop_turn_exc net) Raised = Raised.
Proof. induction k as [|k IH]; [done|]. simpl. by rewrite IH. Qed.

(** The loop with exceptions is the [while] loop as well: finitely many
    turns, after which an exception is on its way out or the loop condition
    is false. *)
Lemma crawl_exc_turns net budget :
  ∀ pv az p urls,
    (Z.to_nat (max_pages (self_of p) - pv) ≤ budget)%nat →
    ∃ k, crawl_exc net budget pv az p urls
         = Nat.iter k (loop_turn_exc net)
                    (Returned (mk_loop_state p pv urls az))
       ∧ match crawl_exc net budget pv az p urls with
         | Returned st => loop_condition st = false
         | Raised => True
         end.
Proof.
  induction budget as [|budget IHb]; intros pv az p urls; revert p;
    induction urls as [|u rest IHq]; intros p Hb.
  1,3: exists 0%nat; by rewrite crawl_exc_nil.
  all: rewrite crawl_exc_cons.
  all: destruct (pv <? max_pages (self_of p))%Z eqn:Hlt;
    [|exists 0%nat; split; [done|]; unfold loop_condition; by simpl].
  all: destruct (fetch_page net u p) as [[soup|] p'] eqn:Hf.
  all: pose proof (fetch_page_max_pages _ _ _ _ _ Hf) as Hmax.
  all: assert (loop_turn_exc net (Returned (mk_loop_state p pv (u :: rest) az))
               = loop_body_exc net (mk_loop_state p pv (u :: rest) az))
    as Hturn
    by (unfold loop_turn_exc, loop_condition; simpl; by rewrite Hlt).
  - apply Z.ltb_lt in Hlt. lia.
  - destruct (IHq p') as (k & Hk & Hc); [lia|].
    exists (S k). rewrite Nat.iter_succ_r, Hturn. unfold loop_body_exc.
    simpl. by rewrite Hf.
  - destruct (analyze_page_exc soup u (pv + 1) (self_of p'))
      as [[s' links]|] eqn:Ha.
    + pose proof (analyze_page_exc_max_pages _ _ _ _ _ _ Ha) as Hmax'.
      destruct (IHb (pv + 1)%Z (az ++ [soup]) (on_self (λ _, s') p')
                    (rest ++ links)) as (k & Hk & Hc).
      { simpl. apply Z.ltb_lt in Hlt. lia. }
      exists (S k). rewrite Nat.iter_succ_r, Hturn. unfold loop_body_exc.
      simpl. by rewrite Hf, Ha.
    + exists 1%nat. split; [|done]. rewrite Nat.iter_succ_r, Hturn.
      unfold loop_body_exc. simpl. by rewrite Hf, Ha.
  - destruct (IHq p') as (k & Hk & Hc); [lia|].
    exists (S k). rewrite Nat.iter_succ_r, Hturn. unfold loop_body_exc.
    simpl. by rewrite Hf.
Qed.

End crawl_with_exceptions_facts.


(** The exception-free library: an instance for the runs in which the two
    calls return. *)
Definition no_url_errors : UrlErrors := {|
  urljoin_raises := λ _ _, false;
  urlparse_raises := λ _, false
|}.


(** A link whose host opens a bracket and does not close it. *)
Definition malformed_href : string := "http://[::1".

(** [urljoin] and [urlparse] raise "Invalid IPv6 URL" on a URL whose host
    has an opening bracket and no closing one. *)
Definition unclosed_bracket (url : string) : bool :=
  Py.startswith url "http://[" && negb (Py.contains "]" url).

Definition unclosed_bracket_errors : UrlErrors := {|
  urljoin_raises := λ base href, unclosed_bracket base || unclosed_bracket href;
  urlparse_raises := unclosed_bracket
|}.

(** The homepage links to a page of the site and carries the malformed
    link. *)
Definition site_with_malformed_link : network :=
  λ _ url,
    if String.eqb url Sample.home
    then HttpResponse 200 (Sample.page_of_links [Sample.url_a; malformed_href])
    else HttpResponse 200 (Sample.page_of_links []).


(** ** The visited set (C2) *)

(** What the log of requests and the visited set have to do with each
    other during a run: a URL whose request was answered is visited, and a
    URL is requested again only if its earlier requests all raised. *)
Definition log_sound (net : network) (p : process) : Prop :=
  (∀ i u, session_log p !! i = Some u → net i u ≠ RequestError →
          u ∈ visited_urls (self_of p))
  ∧ (∀ i j u, (i < j)%nat → session_log p !! i = Some u →
              session_log p !! j = Some u → net i u = RequestError).

Lemma fetch_page_log_sound net url p soup p' :
  fetch_page net url p = (soup, p') → log_sound net p → log_sound net p'.
Proof.
  intros Hf [Hv Hr]. destruct (decide (url ∈ visited_urls (self_of p))) as [Hin|Hin].
  { rewrite fetch_page_visited in Hf by done. by injection Hf as <- <-. }
  rewrite fetch_page_fresh in Hf by done.
  assert (session_log p' = session_log p ++ [url]
          ∧ visited_urls (self_of p) ⊆ visited_urls (self_of p')
          ∧ (net (length (session_log p)) url ≠ RequestError →
             url ∈ visited_urls (self_of p'))) as (Hlog & Hsub & Hnew).
  { destruct (net _ url); injection Hf as <- <-; simpl;
      split_and!; try done; set_solver. }
  split.
  - intros i u. rewrite Hlog. intros [[Hi Hu]|[-> ->]]%lookup_snoc_Some Hne.
    + apply Hsub. by eapply Hv.
    + by apply Hnew.
  - intros i j u Hij. rewrite Hlog.
    intros [[Hi Hu]|[-> ->]]%lookup_snoc_Some
           [[Hj Hu']|[-> Heq]]%lookup_snoc_Some; try lia.
    + by apply (Hr i j u).
    + subst u. destruct (net i url) eqn:Hn; [| |done];
        exfalso; apply Hin; (eapply Hv; [done|]); by rewrite Hn.
Qed.

Lemma loop_body_log_sound `{rt : PyRuntime} net st :
  loop_condition st = true →
  log_sound net (proc st) → log_sound net (proc (loop_body net st)).
Proof.
  intros Hc Hs.
  destruct (loop_body_cases net st Hc)
    as (u & rest & soup & p & Hu & Hlt & Hf & Hb).
  pose proof (fetch_page_log_sound _ _ _ _ _ Hf Hs) as Hs'.
  destruct soup as [page|]; [|by rewrite Hb].
  destruct Hb as (s' & links & Ha & ->). simpl.
  apply analyze_page_crawl_fields in Ha.
  assert (visited_urls s' = visited_urls (self_of p)) as Hvis
    by (unfold crawl_fields in Ha; congruence).
  unfold log_sound, on_self. simpl. rewrite Hvis. exact Hs'.
Qed.

(** C2, as the code has it.  A call of the page fetcher for a URL that is
    not yet visited makes one request; when the request is answered, with
    status 200 or any other, and also when the parser then rejects the
    body, the URL is in the visited set when the fetcher returns; when the
    request raises (network error, timeout) the visited
    set is unchanged.  A visited URL is never requested.  Consequently, in
    a run, a URL is requested a second time only when each of its earlier
    requests raised: no URL that was answered is fetched twice. *)
Theorem answered_fetch_marks_visited `{rt : PyRuntime} (net : network) :
  (∀ url p,
     url ∉ visited_urls (self_of p) →
     session_log (fetch_page net url p).2 = session_log p ++ [url]
     ∧ match net (length (session_log p)) url with
       | HttpResponse _ _ | HttpUnparsable =>
           visited_urls (self_of (fetch_page net url p).2)
           = {[url]} ∪ visited_urls (self_of p)
       | RequestError =>
           visited_urls (self_of (fetch_page net url p).2)
           = visited_urls (self_of p)
       end)
  ∧ (∀ url p,
       url ∈ visited_urls (self_of p) → fetch_page net url p = (None, p))
  ∧ (∀ self i j u,
       (i < j)%nat →
       session_log (proc (crawl_site net self)) !! i = Some u →
       session_log (proc (crawl_site net self)) !! j = Some u →
       net i u = RequestError).
Proof.
  split_and!.
  - intros url p Hin. rewrite fetch_page_fresh by done.
    by destruct (net _ url).
  - apply fetch_page_visited.
  - intros self.
    assert (log_sound net (proc (crawl_site net self))) as [_ H]; [|exact H].
    apply (crawl_site_ind net self (λ st, log_sound net (proc st))).
    + split; simpl; intros ?; by intros.
    + apply loop_body_log_sound.
Qed.

Lemma answered_fetch_marks_visited_witness :
  visited_urls
    (self_of (fetch_page Sample.site_with_dead_links Sample.url_b
                (mk_process (init Sample.home 3 false) [])).2)
  = {[Sample.url_b]} ∪ ∅.
Proof.
  apply (proj1 (answered_fetch_marks_visited (rt := Sample.runtime)
                  Sample.site_with_dead_links)
           Sample.url_b (mk_process (init Sample.home 3 false) [])).
  simpl. apply not_elem_of_empty.
Defined.

(** C2 as stated fails for a network error: the fetcher returns with the
    URL still not visited, and a run requests such a URL again when it is
    queued twice (here [a], linked twice from the homepage). *)
Lemma network_error_leaves_url_unvisited :
  (Sample.url_a ∉
     visited_urls
       (self_of (fetch_page Sample.site_behind_flaky_network Sample.url_a
                   (mk_process (init Sample.home 3 false) [])).2))
  ∧ session_log
      (proc (crawl_site (rt := Sample.runtime)
               Sample.site_behind_flaky_network (init Sample.home 3 false)))
    = [Sample.home; Sample.url_a; Sample.url_a].
Proof. split; [simpl; apply not_elem_of_empty|by vm_compute]. Qed.

(** ** The link extractor (C6) *)

(** The hrefs of the anchors of a page, in document order. *)
Definition anchor_hrefs (doc : Bs4.soup) : list string :=
  (λ a_tag, default "" (Bs4.get a_tag "href"))
    <$> Bs4.find_all_with doc "a" "href".

Lemma scan_anchors_spec `{rt : PyRuntime} current_url self anchors :
  ∀ internal_links,
  ∃ kept,
    kept `sublist_of` ((λ a_tag, default "" (Bs4.get a_tag "href")) <$> anchors)
    ∧ foldl (scan_anchor current_url self) internal_links anchors
      = internal_links ++ (urljoin current_url <$> kept)
    ∧ Forall (λ href,
        skip_link (netloc (base_url self)) href (urljoin current_url href)
        = false
        ∧ urljoin current_url href ∉ visited_urls self) kept.
Proof.
  induction anchors as [|a anchors IH]; intros acc; simpl.
  { exists []. by rewrite app_nil_r. }
  unfold scan_anchor at 2.
  destruct (skip_link _ _ _) eqn:Hskip.
  { destruct (IH acc) as (kept & Hsub & -> & Hall).
    exists kept. split_and!; [by apply sublist_cons|done..]. }
  case_bool_decide as Hvis.
  { destruct (IH acc) as (kept & Hsub & -> & Hall).
    exists kept. split_and!; [by apply sublist_cons|done..]. }
  destruct (IH (acc ++ [urljoin current_url (default "" (Bs4.get a "href"))]))
    as (kept & Hsub & -> & Hall).
  exists (default "" (Bs4.get a "href") :: kept). split_and!.
  - by apply sublist_skip.
  - by rewrite <- app_assoc.
  - by constructor.
Qed.

(** C6.  The URLs the link extractor returns are the resolved hrefs
    ([urljoin(current_url, href)]) of some of the anchors of the page, in
    document order; each of them has the network location of the site
    under analysis, and so its domain, starts with [http://] or [https://],
    comes from an href that is not an in-page anchor (does not start with
    [#]), and is not in the visited set. *)
Theorem extract_links_same_site_unvisited_in_order `{rt : PyRuntime}
    (doc : Bs4.soup) (current_url : string) (self : analyzer) :
  ∃ kept,
    kept `sublist_of` anchor_hrefs doc
    ∧ extract_links doc current_url self = (urljoin current_url <$> kept)
    ∧ Forall (λ href,
        netloc (urljoin current_url href) = netloc (base_url self)
        ∧ Py.startswith href "#" = false
        ∧ (Py.startswith (urljoin current_url href) "http://" = true
           ∨ Py.startswith (urljoin current_url href) "https://" = true)
        ∧ urljoin current_url href ∉ visited_urls self) kept.
Proof.
  destruct (scan_anchors_spec current_url self
              (Bs4.find_all_with doc "a" "href") [])
    as (kept & Hsub & Heq & Hall).
  exists kept. split_and!; [done..|].
  eapply Forall_impl; [exact Hall|]. intros href [Hskip Hvis].
  unfold skip_link in Hskip.
  apply orb_false_elim in Hskip as [[H1 H2]%orb_false_elim H3].
  apply negb_false_iff in H1, H3. apply String.eqb_eq in H1.
  apply orb_true_iff in H3. done.
Qed.

(** ** The page count of the report (C10) *)

Lemma derive_themes_visited_urls names self :
  visited_urls (derive_themes names self) = visited_urls self.
Proof. unfold derive_themes. by repeat case_match. Qed.

(** The requests of a log, each with its number in the run. *)
Definition requests (log : list string) : list (nat * string) :=
  imap (λ i url, (i, url)) log.

(** A request that was answered, with any status. *)
Definition answered (net : network) (request : nat * string) : bool :=
  match net request.1 request.2 with
  | RequestError => false
  | _ => true
  end.

(** A request whose answer is handed to the detectors: status 200 and a
    body the parser accepts. *)
Definition analyzable (net : network) (request : nat * string) : bool :=
  match net request.1 request.2 with
  | HttpResponse status_code _ => (status_code =? 200)%Z
  | _ => false
  end.

Definition count_requests (f : nat * string → bool) (log : list string)
  : nat :=
  length (filter (λ request, Is_true (f request)) (requests log)).

Lemma count_requests_snoc f log url :
  count_requests f (log ++ [url])
  = (count_requests f log + if f (length log, url) then 1 else 0)%nat.
Proof.
  unfold count_requests, requests. rewrite imap_app, filter_app, length_app.
  simpl. rewrite Nat.add_0_r. f_equal. rewrite filter_cons, filter_nil.
  by destruct (f (length log, url)).
Qed.

(** The two counts of a run that started with [n0] visited URLs. *)
Definition page_counts (net : network) (n0 : nat) (st : loop_state) : Prop :=
  size (visited_urls (self_of (proc st)))
  = (n0 + count_requests (answered net) (session_log (proc st)))%nat
  ∧ length (analyzed st)
    = count_requests (analyzable net) (session_log (proc st)).

Lemma loop_body_page_counts `{rt : PyRuntime} net n0 st :
  loop_condition st = true →
  page_counts net n0 st → page_counts net n0 (loop_body net st).
Proof.
  intros Hc [Hvis Haz].
  destruct (loop_body_cases net st Hc)
    as (u & rest & soup & p & Hu & Hlt & Hf & Hb).
  assert (size (visited_urls (self_of p))
          = (n0 + count_requests (answered net) (session_log p))%nat
          ∧ length (analyzed st ++ match soup with
                                   | Some page => [page]
                                   | None => []
                                   end)
            = count_requests (analyzable net) (session_log p))
    as [Hvis' Haz'].
  { destruct (decide (u ∈ visited_urls (self_of (proc st)))) as [Hin|Hin].
    { rewrite fetch_page_visited in Hf by done. injection Hf as <- <-.
      by rewrite app_nil_r. }
    rewrite fetch_page_fresh in Hf by done.
    rewrite length_app, Haz.
    assert (answered net (length (session_log (proc st)), u)
            = match net (length (session_log (proc st))) u with
              | RequestError => false
              | _ => true
              end) as Hanswered by done.
    assert (analyzable net (length (session_log (proc st)), u)
            = match net (length (session_log (proc st))) u with
              | HttpResponse status_code _ => (status_code =? 200)%Z
              | _ => false
              end) as Hanalyzable by done.
    destruct (net (length (session_log (proc st))) u) as [code page| |];
      injection Hf as <- <-; simpl;
      rewrite !count_requests_snoc, Hanswered, Hanalyzable,
        ?size_union, ?size_singleton, ?Hvis by set_solver.
    - destruct (code =? 200)%Z; simpl; lia.
    - simpl. lia.
    - simpl. lia. }
  destruct soup as [page|].
  - destruct Hb as (s' & links & Ha & ->).
    apply analyze_page_crawl_fields in Ha.
    assert (visited_urls s' = visited_urls (self_of p)) as Hs'
      by (unfold crawl_fields in Ha; congruence).
    split; simpl; [by rewrite Hs'|done].
  - rewrite Hb. split; simpl; [done|by rewrite app_nil_r in Haz'].
Qed.



(** ** Child themes (C3) *)

(** The asset URLs [detect_plugins_from_html] hands to
    [_check_asset_for_plugin], and the theme names its path patterns find
    in them. *)
Definition asset_urls (doc : Bs4.soup) : list string :=
  ((λ tag, default "" (Bs4.get tag "src"))
     <$> Bs4.find_all_with doc "script" "src")
  ++ ((λ tag, default "" (Bs4.get tag "href"))
        <$> Bs4.find_all_with doc "link" "href").

Definition theme_match (asset_url : string) : option string :=
  (λ m, group m 1) <$> first_match theme_path_patterns asset_url.

Definition theme_matches (doc : Bs4.soup) : list string :=
  omap theme_match (asset_urls doc).

(** The theme evidence of a site whose only theme is [my-theme-child]:
    observed entries name the child theme, the one other entry is the
    inferred parent, and it is there as soon as the child is. *)
Definition child_theme_evidence (themes : gset (string * string)) : Prop :=
  (∀ name evidence,
     (name, evidence) ∈ themes →
     name = "my-theme-child"
     ∨ (name, evidence) = ("my-theme", inferred_parent_evidence))
  ∧ ((∃ evidence, ("my-theme-child", evidence) ∈ themes) →
     ("my-theme", inferred_parent_evidence) ∈ themes).

Definition child_seen (themes : gset (string * string)) : Prop :=
  ∃ evidence, ("my-theme-child", evidence) ∈ themes.

Lemma check_asset_theme_child u s :
  child_theme_evidence (themes_detected s) →
  theme_match u = None ∨ theme_match u = Some "my-theme-child" →
  child_theme_evidence (themes_detected (check_asset_theme u s))
  ∧ themes_detected s ⊆ themes_detected (check_asset_theme u s)
  ∧ (theme_match u = Some "my-theme-child" →
     child_seen (themes_detected (check_asset_theme u s))).
Proof.
  intros [Hnames Hparent] Hu. unfold theme_match, check_asset_theme in *.
  destruct (first_match theme_path_patterns u) as [m|]; simpl in Hu;
    [|split_and!; [done..|by destruct Hu]].
  destruct Hu as [?|[= ->]]; [done|].
  change (Py.contains "-child" "my-theme-child") with true.
  change (Py.replace "my-theme-child" "-child" "") with "my-theme".
  cbv zeta iota.
  destruct (has_theme_named _ _) eqn:Hnamed; simpl.
  - apply bool_decide_eq_true in Hnamed as ([n e] & Hin & Hn).
    simpl in Hin, Hn. subst n.
    assert (("my-theme", inferred_parent_evidence) ∈ themes_detected s) as Hp.
    { apply elem_of_union in Hin as [[=]%elem_of_singleton|Hin].
      by destruct (Hnames _ _ Hin) as [[=]|[= ->]]. }
    split_and!.
    + split; [|set_solver].
      intros n e' [[= -> ->]%elem_of_singleton|Hin']%elem_of_union; [by left|].
      by apply Hnames.
    + set_solver.
    + intros _. exists u. set_solver.
  - split_and!.
    + split; [|set_solver].
      intros n e' [[= -> ->]%elem_of_singleton
                  |[[= -> ->]%elem_of_singleton|Hin']%elem_of_union]%elem_of_union;
        [by right|by left|by apply Hnames].
    + set_solver.
    + intros _. exists u. set_solver.
Qed.

Lemma check_asset_plugin_themes u s :
  themes_detected (check_asset_plugin u s) = themes_detected s.
Proof. unfold check_asset_plugin. by repeat case_match. Qed.

Lemma check_asset_id_themes marker label tag s :
  themes_detected (check_asset_id marker label tag s) = themes_detected s.
Proof. unfold check_asset_id. by repeat case_match. Qed.

Definition asset_ok (key : string) (tag : Bs4.node) : Prop :=
  theme_match (default "" (Bs4.get tag key)) = None
  ∨ theme_match (default "" (Bs4.get tag key)) = Some "my-theme-child".

Definition asset_matches (key : string) (tag : Bs4.node) : Prop :=
  theme_match (default "" (Bs4.get tag key)) = Some "my-theme-child".

(** The loop over the scripts, or over the links, of a page whose theme
    assets all belong to [my-theme-child]. *)
Lemma scan_assets_child key marker label tags :
  ∀ s,
    child_theme_evidence (themes_detected s) →
    Forall (asset_ok key) tags →
    let s' := foldl (scan_asset key marker label) s tags in
    child_theme_evidence (themes_detected s')
    ∧ themes_detected s ⊆ themes_detected s'
    ∧ (Exists (asset_matches key) tags → child_seen (themes_detected s')).
Proof.
  induction tags as [|tag tags IH]; intros s Hs Hall; simpl.
  { split_and!; [done..|]. by intros ?%Exists_nil. }
  apply Forall_cons in Hall as [Htag Hall].
  set (s1 := scan_asset key marker label s tag).
  assert (themes_detected s1
          = themes_detected
              (check_asset_theme (default "" (Bs4.get tag key))
                 (check_asset_plugin (default "" (Bs4.get tag key)) s))) as H1.
  { unfold s1, scan_asset. cbv zeta. by rewrite check_asset_id_themes. }
  destruct (check_asset_theme_child (default "" (Bs4.get tag key))
              (check_asset_plugin (default "" (Bs4.get tag key)) s))
    as (Hok & Hsub & Hseen); [by rewrite check_asset_plugin_themes|done|].
  rewrite check_asset_plugin_themes in Hsub. rewrite <- H1 in Hok, Hsub, Hseen.
  destruct (IH s1 Hok Hall) as (Hok' & Hsub' & Hseen').
  split_and!; [done|set_solver|].
  intros [Hm|Hm]%Exists_cons; [|by apply Hseen'].
  destruct (Hseen Hm) as [e He]. exists e. set_solver.
Qed.

(** The loops that follow the two asset loops leave the theme evidence
    alone. *)
Lemma detect_plugins_from_html_themes doc url s :
  themes_detected (detect_plugins_from_html doc url s)
  = themes_detected
      (foldl scan_link
         (foldl scan_script s (Bs4.find_all_with doc "script" "src"))
         (Bs4.find_all_with doc "link" "href")).
Proof.
  unfold detect_plugins_from_html. cbv zeta.
  set (s2 := foldl scan_link _ _).
  set (R := λ (_ s' : analyzer), themes_detected s' = themes_detected s2).
  assert (∀ x s1 s', R s1 s' → R (add_plugin x s1) (add_plugin x s')) as Hp
    by done.
  assert (∀ x s1 s', R s1 s' → R (append_indicator x s1) (append_indicator x s'))
    as Hi by done.
  assert (∀ x s1 s', R s1 s' → R (add_css_class x s1) (add_css_class x s'))
    as Hc by done.
  assert (∀ x s1 s',
            R s1 s' → R (add_gutenberg_block x s1) (add_gutenberg_block x s'))
    as Hb by done.
  assert (∀ x s1 s',
            R s1 s' → R (add_custom_post_type x s1) (add_custom_post_type x s'))
    as Ht by done.
  apply (scan_signatures_rel R Hp doc s2).
  apply (foldl_inv (R s2));
    [intros a b _ Ha; exact (scan_meta_rel R Hp b s2 a Ha)|].
  apply (foldl_inv (R s2));
    [intros a b _ Ha; exact (scan_post_type_rel R Ht b s2 a Ha)|].
  apply (foldl_inv (R s2));
    [intros a b _ Ha; exact (scan_block_rel R Hb b s2 a Ha)|].
  apply (foldl_inv (R s2));
    [intros a b _ Ha; exact (scan_comment_rel R Hp Hi b s2 a Ha)|].
  apply (foldl_inv (R s2));
    [intros a b _ Ha; exact (scan_classed_tag_rel R Hp Hc b s2 a Ha)|].
  done.
Qed.

Definition page_ok (doc : Bs4.soup) : Prop :=
  Forall (λ name, name = "my-theme-child") (theme_matches doc).

Definition page_matches (doc : Bs4.soup) : Prop := theme_matches doc ≠ [].

Lemma page_ok_assets doc :
  page_ok doc →
  Forall (asset_ok "src") (Bs4.find_all_with doc "script" "src")
  ∧ Forall (asset_ok "href") (Bs4.find_all_with doc "link" "href").
Proof.
  unfold page_ok, theme_matches, asset_urls. rewrite omap_app, Forall_app.
  intros [H1 H2]. split; apply Forall_forall; intros tag Htag; unfold asset_ok.
  - destruct (theme_match (default "" (Bs4.get tag "src"))) as [n|] eqn:Hm;
      [right|by left].
    f_equal. eapply (proj1 (Forall_forall _ _) H1).
    apply list_elem_of_omap. eexists. split; [|exact Hm].
    by apply (list_elem_of_fmap_2 (λ t, default "" (Bs4.get t "src"))).
  - destruct (theme_match (default "" (Bs4.get tag "href"))) as [n|] eqn:Hm;
      [right|by left].
    f_equal. eapply (proj1 (Forall_forall _ _) H2).
    apply list_elem_of_omap. eexists. split; [|exact Hm].
    by apply (list_elem_of_fmap_2 (λ t, default "" (Bs4.get t "href"))).
Qed.

Lemma page_matches_assets doc :
  page_ok doc → page_matches doc →
  Exists (asset_matches "src") (Bs4.find_all_with doc "script" "src")
  ∨ Exists (asset_matches "href") (Bs4.find_all_with doc "link" "href").
Proof.
  intros Hok Hm. unfold page_matches in Hm.
  destruct (theme_matches doc) as [|n l] eqn:Hl; [done|].
  assert (n ∈ theme_matches doc) as Hn by (rewrite Hl; by left).
  assert (n = "my-theme-child") as ->
    by (eapply (proj1 (Forall_forall _ _) Hok); exact Hn).
  unfold theme_matches, asset_urls in Hn.
  apply list_elem_of_omap in Hn as (u & Hu & Hmatch).
  apply elem_of_app in Hu as [Hu|Hu];
    apply list_elem_of_fmap in Hu as (tag & -> & Htag); [left|right];
    apply Exists_exists; by exists tag.
Qed.

Lemma detect_page_child `{rt : PyRuntime} page url s :
  page_ok page →
  child_theme_evidence (themes_detected s) →
  let s' := detect_custom_functionality page (detect_plugins_from_html page url s) in
  child_theme_evidence (themes_detected s')
  ∧ themes_detected s ⊆ themes_detected s'
  ∧ (page_matches page → child_seen (themes_detected s')).
Proof.
  intros Hok Hs s'.
  assert (themes_detected s'
          = themes_detected
              (foldl scan_link
                 (foldl scan_script s (Bs4.find_all_with page "script" "src"))
                 (Bs4.find_all_with page "link" "href"))) as ->.
  { unfold s'. rewrite <- (detect_plugins_from_html_themes page url s).
    by apply detect_custom_functionality_keeps. }
  destruct (page_ok_assets page Hok) as [Hsrc Hhref].
  destruct (scan_assets_child "src" "-js" "Script ID: " _ s Hs Hsrc)
    as (Hs1 & Hsub1 & Hseen1).
  destruct (scan_assets_child "href" "-css" "Link ID: " _ _ Hs1 Hhref)
    as (Hs2 & Hsub2 & Hseen2).
  split_and!; [done|set_solver|]. intros Hm.
  destruct (page_matches_assets page Hok Hm) as [H1|H2]; [|by apply Hseen2].
  destruct (Hseen1 H1) as [e He]. exists e. by apply Hsub2.
Qed.

Lemma analyze_page_self `{rt : PyRuntime} page url pv s :
  (analyze_page page url pv s).1
  = detect_custom_functionality page (detect_plugins_from_html page url s).
Proof. unfold analyze_page. cbv zeta. by case_match. Qed.

(** What a run over pages of a [my-theme-child] site knows of themes. *)
Definition child_theme_run (st : loop_state) : Prop :=
  Forall page_ok (analyzed st) →
  child_theme_evidence (themes_detected (self_of (proc st)))
  ∧ (Exists page_matches (analyzed st) →
     child_seen (themes_detected (self_of (proc st)))).

Lemma loop_body_child_theme_run `{rt : PyRuntime} net st :
  loop_condition st = true →
  child_theme_run st → child_theme_run (loop_body net st).
Proof.
  intros Hc Hrun.
  destruct (loop_body_cases net st Hc)
    as (u & rest & soup & p & Hu & Hlt & Hf & Hb).
  assert (themes_detected (self_of p) = themes_detected (self_of (proc st)))
    as Hthemes.
  { by destruct (fetch_page_effect _ _ _ _ _ Hf) as [[-> | ->] _]. }
  destruct soup as [page|].
  - destruct Hb as (s' & links & Ha & ->). unfold child_theme_run. simpl.
    intros [Hall [Hpage _]%Forall_cons]%Forall_app.
    destruct (Hrun Hall) as [Hev Hseen].
    assert (s' = (analyze_page page u (pages_visited st + 1) (self_of p)).1)
      as -> by by rewrite Ha.
    rewrite analyze_page_self.
    destruct (detect_page_child page u (self_of p) Hpage)
      as (Hev' & Hsub & Hseen'); [by rewrite Hthemes|].
    split; [done|].
    intros [Hold|Hnew%Exists_cons]%Exists_app.
    + destruct (Hseen Hold) as [e He]. exists e. apply Hsub.
      by rewrite Hthemes.
    + destruct Hnew as [Hnew|Hnil%Exists_nil]; [by apply Hseen'|done].
  - rewrite Hb. unfold child_theme_run. simpl. by rewrite Hthemes.
Qed.

(** The derivation after the loop, on theme names that are all
    [my-theme-child] or [my-theme], both present, in any order. *)
Lemma derive_themes_child_parent names s :
  "my-theme-child" ∈ names → "my-theme" ∈ names →
  (∀ name, name ∈ names → name = "my-theme-child" ∨ name = "my-theme") →
  main_theme (derive_themes names s) = Some "my-theme"
  ∧ child_theme (derive_themes names s) = Some "my-theme-child"
  ∧ themes_detected (derive_themes names s) = themes_detected s.
Proof.
  intros Hchild Hparent Hall. unfold derive_themes.
  destruct names as [|first [|second rest]].
  - by apply elem_of_nil in Hchild.
  - apply list_elem_of_singleton in Hchild, Hparent. congruence.
  - set (names := first :: second :: rest) in *.
    destruct (filter _ names) as [|child others] eqn:Hfilter.
    { assert ("my-theme-child" ∈ filter
                (λ name, Is_true (Py.contains "-child" name)) names) as Hin
        by (apply list_elem_of_filter; split; [by vm_compute|done]).
      rewrite Hfilter in Hin. by apply elem_of_nil in Hin. }
    assert (child ∈ filter (λ name, Is_true (Py.contains "-child" name)) names)
      as [Hc Hin]%list_elem_of_filter by (rewrite Hfilter; by left).
    destruct (Hall child Hin) as [-> | ->]; [|by vm_compute in Hc].
    change (Py.replace "my-theme-child" "-child" "") with "my-theme".
    by rewrite bool_decide_eq_true_2.
Qed.

Lemma elem_of_set_iter `{rt : PyRuntime} `{Countable A} (s : gset A) (x : A) :
  x ∈ set_iter s ↔ x ∈ s.
Proof. rewrite set_iter_perm. apply elem_of_elements. Qed.

(** C3.  Take a crawl, from an analyzer with no theme evidence yet, in
    which every theme-path match of an analyzed page is [my-theme-child]
    and some analyzed page has such a match.  When the crawl completes, the
    theme evidence holds [my-theme] with the evidence string "Parent theme
    detected via child theme reference", which marks it as inferred, and
    [child_theme] is [my-theme-child] and [main_theme] is [my-theme],
    whatever the order in which the set of theme evidence is iterated. *)
Theorem child_theme_yields_inferred_parent `{rt : PyRuntime}
    (net : network) (self : analyzer) :
  themes_detected self = ∅ →
  Forall page_ok (analyzed (crawl_site net self)) →
  Exists page_matches (analyzed (crawl_site net self)) →
  ("my-theme", inferred_parent_evidence) ∈ themes_detected (analyze_site net self)
  ∧ child_theme (analyze_site net self) = Some "my-theme-child"
  ∧ main_theme (analyze_site net self) = Some "my-theme".
Proof.
  intros Hempty Hall Hsome.
  assert (child_theme_run (crawl_site net self)) as Hrun.
  { apply crawl_site_ind; [|apply loop_body_child_theme_run].
    intros _. unfold start. simpl.
    assert (themes_detected (normalize_base_url self) = ∅) as ->
      by (unfold normalize_base_url; by case_match).
    split; [split; set_solver|]. by intros ?%Exists_nil. }
  destruct (Hrun Hall) as [[Hnames Hparent] Hseen].
  specialize (Hseen Hsome). specialize (Hparent Hseen).
  destruct Hseen as [e He].
  set (s := self_of (proc (crawl_site net self))) in *.
  destruct (derive_themes_child_parent (set_iter (themes_detected s)).*1 s)
    as (Hmain & Hchild & Hthemes).
  - apply list_elem_of_fmap. exists ("my-theme-child", e).
    split; [done|]. by apply elem_of_set_iter.
  - apply list_elem_of_fmap. exists ("my-theme", inferred_parent_evidence).
    split; [done|]. by apply elem_of_set_iter.
  - intros name ([n e'] & -> & Hin%elem_of_set_iter)%list_elem_of_fmap. simpl.
    destruct (Hnames _ _ Hin) as [?|[= -> ->]]; auto.
  - unfold analyze_site. cbv zeta. fold s. by rewrite Hthemes.
Qed.

Lemma child_theme_yields_inferred_parent_witness :
  child_theme
    (analyze_site (rt := Sample.runtime) Sample.child_theme_site
       (init Sample.home 1 false))
  = Some "my-theme-child"
  ∧ main_theme
      (analyze_site (rt := Sample.runtime) Sample.child_theme_site
         (init Sample.home 1 false))
    = Some "my-theme".
Proof.
  apply (child_theme_yields_inferred_parent (rt := Sample.runtime)
           Sample.child_theme_site (init Sample.home 1 false)).
  - reflexivity.
  - vm_compute. repeat constructor.
  - vm_compute. constructor. discriminate.
Defined.

(** ** Order of the detectors (C7) *)

Lemma analyzer_eq (s1 s2 : analyzer) :
  base_url s1 = base_url s2 → max_pages s1 = max_pages s2 →
  verbose s1 = verbose s2 → visited_urls s1 = visited_urls s2 →
  plugins_detected s1 = plugins_detected s2 →
  themes_detected s1 = themes_detected s2 →
  main_theme s1 = main_theme s2 → child_theme s1 = child_theme s2 →
  custom_post_types s1 = custom_post_types s2 →
  shortcodes s1 = shortcodes s2 → rest_endpoints s1 = rest_endpoints s2 →
  custom_data_attributes s1 = custom_data_attributes s2 →
  ajax_calls s1 = ajax_calls s2 → gutenberg_blocks s1 = gutenberg_blocks s2 →
  custom_code_indicators s1 = custom_code_indicators s2 →
  css_classes s1 = css_classes s2 →
  s1 = s2.
Proof. destruct s1, s2. simpl. intros. by subst. Qed.

(** The collections written by [detect_plugins_from_html] alone, and by
    [detect_custom_functionality] alone; [custom_code_indicators] is
    written by both. *)
Definition html_fields (s : analyzer) :=
  (plugins_detected s, themes_detected s, css_classes s, gutenberg_blocks s,
   custom_post_types s).

Definition custom_fields (s : analyzer) :=
  (custom_data_attributes s, ajax_calls s, rest_endpoints s, shortcodes s).

(** The fields neither detector writes. *)
Definition fixed_fields (s : analyzer) :=
  (base_url s, max_pages s, verbose s, visited_urls s, main_theme s,
   child_theme s).

(** Two analyzers that agree on the reading [F] and whose indicator lists
    are [c1] and [c2] followed by the same items. *)
Definition same_effect {T} (F : analyzer → T) (c1 c2 : list string)
    (s1 s2 : analyzer) : Prop :=
  F s1 = F s2
  ∧ ∃ added, custom_code_indicators s1 = c1 ++ added
           ∧ custom_code_indicators s2 = c2 ++ added.

Lemma same_effect_start {T} (F : analyzer → T) s1 s2 :
  F s1 = F s2 →
  same_effect F (custom_code_indicators s1) (custom_code_indicators s2) s1 s2.
Proof. intros H. split; [done|]. exists []. by rewrite !app_nil_r. Qed.

Lemma same_effect_append {T} (F : analyzer → T) c1 c2 x s1 s2 :
  (∀ s, F (append_indicator x s) = F s) →
  same_effect F c1 c2 s1 s2 →
  same_effect F c1 c2 (append_indicator x s1) (append_indicator x s2).
Proof.
  intros HF [H (added & H1 & H2)]. split; [by rewrite !HF|].
  exists (added ++ [x]). simpl. by rewrite H1, H2, !app_assoc.
Qed.

Lemma has_theme_named_agree name s1 s2 :
  themes_detected s1 = themes_detected s2 →
  has_theme_named name s1 = has_theme_named name s2.
Proof. unfold has_theme_named. by intros ->. Qed.

Lemma detect_plugins_from_html_same_effect doc url c1 c2 s1 s2 :
  same_effect html_fields c1 c2 s1 s2 →
  same_effect html_fields c1 c2
    (detect_plugins_from_html doc url s1) (detect_plugins_from_html doc url s2).
Proof.
  assert (∀ (f : analyzer → analyzer),
            (∀ s, custom_code_indicators (f s) = custom_code_indicators s) →
            (∀ s s', html_fields s = html_fields s' →
                     html_fields (f s) = html_fields (f s')) →
            ∀ s s', same_effect html_fields c1 c2 s s' →
                    same_effect html_fields c1 c2 (f s) (f s')) as Hset.
  { intros f Hc Hf s s' [H (added & H1 & H2)]. split; [by apply Hf|].
    exists added. by rewrite !Hc. }
  assert (∀ x s s', same_effect html_fields c1 c2 s s' →
            same_effect html_fields c1 c2 (add_theme x s) (add_theme x s'))
    as Htheme.
  { intros x. apply Hset; [done|]. unfold html_fields. simpl.
    intros s s' [= -> -> -> -> ->]. done. }
  apply detect_plugins_from_html_rel.
  - intros x. apply Hset; [done|]. unfold html_fields. simpl.
    intros s s' [= -> -> -> -> ->]. done.
  - intros x s s'. by apply same_effect_append.
  - intros x. apply Hset; [done|]. unfold html_fields. simpl.
    intros s s' [= -> -> -> -> ->]. done.
  - intros x. apply Hset; [done|]. unfold html_fields. simpl.
    intros s s' [= -> -> -> -> ->]. done.
  - intros x. apply Hset; [done|]. unfold html_fields. simpl.
    intros s s' [= -> -> -> -> ->]. done.
  - intros u s s' H. unfold check_asset_theme.
    destruct (first_match theme_path_patterns u) as [m|]; [|done]. cbv zeta.
    pose proof (Htheme (group m 1, u) _ _ H) as H'.
    destruct (Py.contains "-child" (group m 1)); [|done].
    rewrite (has_theme_named_agree _ _ (add_theme (group m 1, u) s')).
    + destruct (negb _); [by apply Htheme|done].
    + destruct H' as [[= _ Ht _ _ _] _]. exact Ht.
Qed.

Lemma detect_custom_functionality_same_effect `{rt : PyRuntime}
    doc c1 c2 s1 s2 :
  same_effect custom_fields c1 c2 s1 s2 →
  same_effect custom_fields c1 c2
    (detect_custom_functionality doc s1) (detect_custom_functionality doc s2).
Proof.
  assert (∀ (f : analyzer → analyzer),
            (∀ s, custom_code_indicators (f s) = custom_code_indicators s) →
            (∀ s s', custom_fields s = custom_fields s' →
                     custom_fields (f s) = custom_fields (f s')) →
            ∀ s s', same_effect custom_fields c1 c2 s s' →
                    same_effect custom_fields c1 c2 (f s) (f s')) as Hset.
  { intros f Hc Hf s s' [H (added & H1 & H2)]. split; [by apply Hf|].
    exists added. by rewrite !Hc. }
  apply detect_custom_functionality_rel.
  - intros x. apply Hset; [done|]. unfold custom_fields. simpl.
    intros s s' [= -> -> -> ->]. done.
  - intros x. apply Hset; [done|]. unfold custom_fields. simpl.
    intros s s' [= -> -> -> ->]. done.
  - intros x. apply Hset; [done|]. unfold custom_fields. simpl.
    intros s s' [= -> -> -> ->]. done.
  - intros x. apply Hset; [done|]. unfold custom_fields. simpl.
    intros s s' [= -> -> -> ->]. done.
  - intros x s s'. by apply same_effect_append.
Qed.

(** C7, as the code has it.  Running [detect_plugins_from_html] and
    [detect_custom_functionality] on a page in either order gives the same
    analyzer in every field but [custom_code_indicators], the list both
    detectors append to.  Each detector appends the same items whether it
    runs first or second ([by_html] and [by_custom]), after what the list
    held before; so the two orders give the same items, the items of the
    detector that ran first coming first. *)
Theorem detectors_commute_up_to_indicator_order `{rt : PyRuntime}
    (doc : Bs4.soup) (url : string) (s : analyzer) :
  set_custom_code_indicators []
    (detect_custom_functionality doc (detect_plugins_from_html doc url s))
  = set_custom_code_indicators []
      (detect_plugins_from_html doc url (detect_custom_functionality doc s))
  ∧ ∃ by_html by_custom,
      custom_code_indicators (detect_plugins_from_html doc url s)
      = custom_code_indicators s ++ by_html
      ∧ custom_code_indicators (detect_custom_functionality doc s)
        = custom_code_indicators s ++ by_custom
      ∧ custom_code_indicators
          (detect_custom_functionality doc (detect_plugins_from_html doc url s))
        = custom_code_indicators s ++ by_html ++ by_custom
      ∧ custom_code_indicators
          (detect_plugins_from_html doc url (detect_custom_functionality doc s))
        = custom_code_indicators s ++ by_custom ++ by_html.
Proof.
  set (A := detect_plugins_from_html doc url).
  set (B := detect_custom_functionality doc).
  assert (∀ s, custom_fields (A s) = custom_fields s
               ∧ fixed_fields (A s) = fixed_fields s) as HA.
  { intros s'. split; by apply detect_plugins_from_html_keeps. }
  assert (∀ s, html_fields (B s) = html_fields s
               ∧ fixed_fields (B s) = fixed_fields s) as HB.
  { intros s'. split; by apply detect_custom_functionality_keeps. }
  destruct (detect_plugins_from_html_same_effect doc url _ _ s (B s)
              (same_effect_start html_fields s (B s) (eq_sym (proj1 (HB s)))))
    as (HhAB & by_html & Hh1 & Hh2).
  destruct (detect_custom_functionality_same_effect doc _ _ s (A s)
              (same_effect_start custom_fields s (A s) (eq_sym (proj1 (HA s)))))
    as (HcBA & by_custom & Hc1 & Hc2).
  fold A in HhAB, Hh1, Hh2. fold B in HcBA, Hc1, Hc2.
  destruct (HA s) as [HAc HAf]. destruct (HA (B s)) as [HABc HABf].
  destruct (HB s) as [HBh HBf]. destruct (HB (A s)) as [HBAh HBAf].
  split.
  - unfold html_fields, custom_fields, fixed_fields in *.
    apply analyzer_eq; simpl; congruence.
  - exists by_html, by_custom.
    by rewrite Hc2, Hh2, Hh1, Hc1, <- !app_assoc.
Qed.

(** C7 as stated fails: on [Sample.mixed_page] the default order leaves the
    custom plugin indicator before the custom JS indicator, the other
    order leaves it after. *)
Lemma detector_order_changes_indicator_list :
  detect_custom_functionality (rt := Sample.runtime) Sample.mixed_page
    (detect_plugins_from_html Sample.mixed_page Sample.home
       (init Sample.home 3 false))
  ≠ detect_plugins_from_html Sample.mixed_page Sample.home
      (detect_custom_functionality (rt := Sample.runtime) Sample.mixed_page
         (init Sample.home 3 false)).
Proof.
  intros H. apply (f_equal custom_code_indicators) in H.
  vm_compute in H. discriminate H.
Qed.

(** ** The auxiliary collections (C9) *)

(** An update [p] makes the set read by [F] grow by something that depends
    on the item only (the item itself, or nothing). *)
Definition grows {X} (F : analyzer → gset string)
    (p : X → analyzer → analyzer) : Prop :=
  ∃ g : X → gset string, ∀ x s, F (p x s) = g x ∪ F s.

Section analyzed_twice.
Context `{rt : PyRuntime}.
Context (F : analyzer → gset string).
Context (F_plugin : grows F add_plugin).
Context (F_indicator : grows F append_indicator).
Context (F_css : grows F add_css_class).
Context (F_block : grows F add_gutenberg_block).
Context (F_post_type : grows F add_custom_post_type).
Context (F_theme : ∀ x s, F (add_theme x s) = F s).
Context (F_attribute : grows F add_custom_data_attribute).
Context (F_ajax : grows F add_ajax_call).
Context (F_rest : grows F add_rest_endpoint).
Context (F_shortcode : grows F add_shortcode).

(** Running the detectors from two analyzers, one of which has [extra] more
    in the set, leaves the same difference. *)
Definition ahead (extra : gset string) (s1 s2 : analyzer) : Prop :=
  F s2 = F s1 ∪ extra.

Lemma grows_ahead {X} (p : X → analyzer → analyzer) extra :
  grows F p →
  ∀ x s1 s2, ahead extra s1 s2 → ahead extra (p x s1) (p x s2).
Proof.
  intros [g Hg] x s1 s2 H. unfold ahead in *. rewrite !Hg, H. set_solver.
Qed.

Lemma grows_mono {X} (p : X → analyzer → analyzer) s0 :
  grows F p →
  ∀ x (s1 s2 : analyzer), F s0 ⊆ F s2 → F s0 ⊆ F (p x s2).
Proof. intros [g Hg] x _ s2 H. rewrite Hg. set_solver. Qed.

Lemma check_asset_theme_keeps u s : F (check_asset_theme u s) = F s.
Proof. unfold check_asset_theme. repeat case_match; by rewrite ?F_theme. Qed.

Definition detect_all (doc : Bs4.soup) (url : string) (s : analyzer)
  : analyzer :=
  detect_custom_functionality doc (detect_plugins_from_html doc url s).

Lemma detect_all_ahead doc url extra s1 s2 :
  ahead extra s1 s2 →
  ahead extra (detect_all doc url s1) (detect_all doc url s2).
Proof.
  intros H. unfold detect_all.
  apply detect_custom_functionality_rel; try by apply grows_ahead.
  apply detect_plugins_from_html_rel; try by apply grows_ahead.
  - intros u s s' Hs. unfold ahead in *. by rewrite !check_asset_theme_keeps.
  - done.
Qed.

Lemma detect_all_mono doc url s : F s ⊆ F (detect_all doc url s).
Proof.
  unfold detect_all.
  set (R := λ (_ s' : analyzer), F s ⊆ F s').
  change (R (detect_custom_functionality doc (detect_plugins_from_html doc url s))
            (detect_custom_functionality doc (detect_plugins_from_html doc url s))).
  apply detect_custom_functionality_rel; try by (unfold R; apply grows_mono).
  apply detect_plugins_from_html_rel; try by (unfold R; apply grows_mono).
  - intros u s0 s' Hs. unfold R in *. by rewrite check_asset_theme_keeps.
  - unfold R. set_solver.
Qed.

Lemma detect_all_twice doc url s :
  F (detect_all doc url (detect_all doc url s)) = F (detect_all doc url s).
Proof.
  pose proof (detect_all_mono doc url s) as Hmono.
  assert (ahead (F (detect_all doc url s)) s (detect_all doc url s)) as H
    by (unfold ahead; set_solver).
  apply (detect_all_ahead doc url) in H. unfold ahead in H. rewrite H.
  set_solver.
Qed.

End analyzed_twice.

(** The six auxiliary collections that are Python sets. *)
Definition auxiliary_sets (s : analyzer) : list (gset string) :=
  [ gutenberg_blocks s; custom_post_types s; rest_endpoints s; shortcodes s;
    custom_data_attributes s; ajax_calls s ].

Ltac solve_grows :=
  first [ by (exists (λ x, {[x]}); intros; simpl)
        | exists (λ _, ∅); intros; simpl; set_solver ].

(** C9, as the code has it.  Gutenberg block classes, custom post type
    slugs, REST endpoint identifiers, shortcode names, custom data-attribute
    strings and AJAX action descriptors are kept in sets: adding a value
    that is already there changes nothing, running the detectors a second
    time on a page leaves the six collections as they were after the first
    time, and a value is met once when a collection is iterated.  The
    custom-code indicators are kept in a list, which is not deduplicated. *)
Theorem auxiliary_sets_hold_each_value_once `{rt : PyRuntime}
    (doc : Bs4.soup) (url : string) (s : analyzer) :
  auxiliary_sets (detect_all doc url (detect_all doc url s))
  = auxiliary_sets (detect_all doc url s)
  ∧ Forall (λ collection, NoDup (set_iter collection)) (auxiliary_sets s)
  ∧ (∀ x,
       [ gutenberg_blocks (add_gutenberg_block x (add_gutenberg_block x s));
         custom_post_types (add_custom_post_type x (add_custom_post_type x s));
         rest_endpoints (add_rest_endpoint x (add_rest_endpoint x s));
         shortcodes (add_shortcode x (add_shortcode x s));
         custom_data_attributes
           (add_custom_data_attribute x (add_custom_data_attribute x s));
         ajax_calls (add_ajax_call x (add_ajax_call x s)) ]
       = [ gutenberg_blocks (add_gutenberg_block x s);
           custom_post_types (add_custom_post_type x s);
           rest_endpoints (add_rest_endpoint x s);
           shortcodes (add_shortcode x s);
           custom_data_attributes (add_custom_data_attribute x s);
           ajax_calls (add_ajax_call x s) ]).
Proof.
  split_and!.
  - unfold auxiliary_sets.
    rewrite (detect_all_twice gutenberg_blocks) by (done || solve_grows).
    rewrite (detect_all_twice custom_post_types) by (done || solve_grows).
    rewrite (detect_all_twice rest_endpoints) by (done || solve_grows).
    rewrite (detect_all_twice shortcodes) by (done || solve_grows).
    rewrite (detect_all_twice custom_data_attributes) by (done || solve_grows).
    by rewrite (detect_all_twice ajax_calls) by (done || solve_grows).
  - unfold auxiliary_sets.
    repeat constructor; rewrite set_iter_perm; apply NoDup_elements.
  - intros x. simpl.
    assert (∀ S : gset string, {[x]} ∪ ({[x]} ∪ S) = {[x]} ∪ S) as Hdup
      by set_solver.
    by rewrite !Hdup.
Qed.

(** C9 as stated fails for the custom-code indicators: after the detectors
    ran twice on [Sample.mixed_page] the list holds the same custom plugin
    indicator twice. *)
Lemma indicator_list_keeps_duplicates :
  ¬ NoDup
      (custom_code_indicators
         (detect_all (rt := Sample.runtime) Sample.mixed_page Sample.home
            (detect_all (rt := Sample.runtime) Sample.mixed_page Sample.home
               (init Sample.home 3 false)))).
Proof.
  intros H. vm_compute in H.
  apply NoDup_cons in H as [H _]. apply H. right. by left.
Qed.

(** ** Capped lists of the report (C8) *)

Lemma set_iter_length `{rt : PyRuntime} `{Countable A} (s : gset A) :
  length (set_iter s) = size s.
Proof. by rewrite set_iter_perm. Qed.

(** How often [sub] occurs in [s] (occurrences may overlap). *)
Fixpoint occurrences (sub s : string) : nat :=
  (if String.prefix sub s then 1 else 0)
  + match s with
    | EmptyString => 0
    | String _ s' => occurrences sub s'
    end.

(** C8, as the code has it.  With exactly 15 custom data attributes the
    "Custom Data Attributes" list of the report has exactly 10 entries,
    taken from the collected attributes, followed by the line
    "- ... and 5 more".  In general the three capped lists that end the
    report (custom data attributes, cap 10; other custom code indicators,
    cap 5; in verbose mode the plugin CSS classes, cap 20) show the first
    [cap] items and then the line "- ... and <n - cap> more" when they hold
    [n > cap] items.  (The sources listed under a plugin in verbose mode are
    capped at 3 and are not among them.) *)
Theorem capped_lists_state_overflow `{rt : PyRuntime} (self : analyzer) :
  size (custom_data_attributes self) = 15%nat →
  (∃ shown,
     length shown = 10%nat
     ∧ shown ⊆ elements (custom_data_attributes self)
     ∧ data_attributes_section self
       = nl +:+ nl +:+ "Custom Data Attributes:"
         +:+ bullets "" "" shown +:+ nl +:+ "- ... and 5 more")
  ∧ (∀ s : analyzer,
       (10 < size (custom_data_attributes s))%nat →
       data_attributes_section s
       = nl +:+ nl +:+ "Custom Data Attributes:"
         +:+ bullets "" "" (take 10 (set_iter (custom_data_attributes s)))
         +:+ nl +:+ "- ... and "
         +:+ Py.str_of_Z (Z.of_nat (size (custom_data_attributes s)) - 10)
         +:+ " more")
  ∧ (∀ s : analyzer,
       let others :=
         filter (λ item, ¬ Is_true (is_custom_plugin item))
                (custom_code_indicators s) in
       (5 < length others)%nat →
       other_indicators_section s
       = nl +:+ nl +:+ "Other Custom Code Indicators:"
         +:+ bullets "" "" (take 5 others)
         +:+ nl +:+ "- ... and "
         +:+ Py.str_of_Z (Z.of_nat (length others) - 5) +:+ " more")
  ∧ (∀ s : analyzer,
       let classes :=
         filter (λ cls, Is_true (is_plugin_specific_class cls))
                (set_iter (css_classes s)) in
       verbose s = true →
       (20 < length classes)%nat →
       css_classes_section s
       = nl +:+ nl +:+ css_heading
         +:+ bullets "" "" (take 20 classes)
         +:+ nl +:+ "- ... and "
         +:+ Py.str_of_Z (Z.of_nat (length classes) - 20) +:+ " more").
Proof.
  intros H15.
  assert (∀ s : analyzer,
            (10 < size (custom_data_attributes s))%nat →
            data_attributes_section s
            = nl +:+ nl +:+ "Custom Data Attributes:"
              +:+ bullets "" "" (take 10 (set_iter (custom_data_attributes s)))
              +:+ nl +:+ "- ... and "
              +:+ Py.str_of_Z (Z.of_nat (size (custom_data_attributes s)) - 10)
              +:+ " more") as Hattrs.
  { intros s Hn. unfold data_attributes_section, overflow_line.
    pose proof (set_iter_length (custom_data_attributes s)) as Hlen.
    destruct (set_iter (custom_data_attributes s)) as [|a l] eqn:Hl;
      [simpl in Hlen; lia|].
    rewrite (proj2 (Nat.ltb_lt _ _) Hn). by rewrite ?append_assoc. }
  split_and!.
  - exists (take 10 (set_iter (custom_data_attributes self))). split_and!.
    + rewrite length_take, set_iter_length. lia.
    + intros x Hx%subseteq_take. apply elem_of_elements.
      by apply elem_of_set_iter.
    + rewrite Hattrs by lia. by rewrite H15.
  - exact Hattrs.
  - intros s others Hn. unfold other_indicators_section, overflow_line.
    fold others. destruct others as [|a l] eqn:Hl; [simpl in Hn; lia|].
    rewrite (proj2 (Nat.ltb_lt _ _) Hn). by rewrite ?append_assoc.
  - intros s classes Hv Hn. unfold css_classes_section, overflow_line.
    fold classes. rewrite Hv.
    destruct (set_iter (css_classes s)) as [|a l] eqn:Hl.
    { unfold classes in Hn. simpl in Hn. lia. }
    rewrite (proj2 (Nat.ltb_lt _ _) Hn). by rewrite ?append_assoc.
Qed.

Lemma capped_lists_state_overflow_witness :
  ∃ shown,
    length shown = 10%nat
    ∧ shown ⊆ elements (custom_data_attributes Sample.fifteen_attributes)
    ∧ data_attributes_section (rt := Sample.runtime) Sample.fifteen_attributes
      = nl +:+ nl +:+ "Custom Data Attributes:"
        +:+ bullets "" "" shown +:+ nl +:+ "- ... and 5 more".
Proof.
  apply (capped_lists_state_overflow (rt := Sample.runtime)
           Sample.fifteen_attributes).
  by vm_compute.
Defined.

(** C8 as stated fails for the sources listed under a plugin in verbose
    mode: of the four sources of WooCommerce in [Sample.four_sources] the
    report lists three, and no line says that one was left out. *)
Lemma plugin_sources_dropped_silently :
  size (plugins_detected Sample.four_sources) = 4%nat
  ∧ occurrences "Found in: "
      (generate_report (rt := Sample.runtime) Sample.four_sources) = 3%nat
  ∧ occurrences "more"
      (generate_report (rt := Sample.runtime) Sample.four_sources) = 0%nat.
Proof. by vm_compute. Qed.

(** * Further properties of the analyzer *)

(** ** Evidence only grows *)

(** Every collection of [s] is contained in the one of [s'], the indicator
    list of [s] being the beginning of the one of [s']. *)
Definition evidence_grows (s s' : analyzer) : Prop :=
  visited_urls s ⊆ visited_urls s'
  ∧ plugins_detected s ⊆ plugins_detected s'
  ∧ themes_detected s ⊆ themes_detected s'
  ∧ custom_post_types s ⊆ custom_post_types s'
  ∧ shortcodes s ⊆ shortcodes s'
  ∧ rest_endpoints s ⊆ rest_endpoints s'
  ∧ custom_data_attributes s ⊆ custom_data_attributes s'
  ∧ ajax_calls s ⊆ ajax_calls s'
  ∧ gutenberg_blocks s ⊆ gutenberg_blocks s'
  ∧ css_classes s ⊆ css_classes s'
  ∧ custom_code_indicators s `prefix_of` custom_code_indicators s'.

Lemma evidence_grows_refl s : evidence_grows s s.
Proof. unfold evidence_grows. by split_and!. Qed.

Lemma evidence_grows_trans s1 s2 s3 :
  evidence_grows s1 s2 → evidence_grows s2 s3 → evidence_grows s1 s3.
Proof.
  unfold evidence_grows. intros H12 H23. destruct_and!.
  split_and!; by etrans.
Qed.

(** An update that only adds to the collections, applied to the larger
    analyzer, keeps it larger. *)
Lemma evidence_grows_step (f : analyzer → analyzer) s0 s :
  evidence_grows s (f s) → evidence_grows s0 s → evidence_grows s0 (f s).
Proof. intros Hf H. by eapply evidence_grows_trans. Qed.

Ltac solve_grows_step :=
  intros; eapply evidence_grows_step; [|eassumption];
  unfold evidence_grows; simpl; split_and!;
  first [ done | set_solver | by apply prefix_app_r ].

Lemma detect_plugins_from_html_grows doc url s :
  evidence_grows s (detect_plugins_from_html doc url s).
Proof.
  set (R := λ (_ s' : analyzer), evidence_grows s s').
  change (R (detect_plugins_from_html doc url s)
            (detect_plugins_from_html doc url s)).
  apply detect_plugins_from_html_rel; unfold R; try solve_grows_step.
  - assert (∀ x s', evidence_grows s s' → evidence_grows s (add_theme x s'))
      as Htheme by solve_grows_step.
    intros u _ s2 H. unfold check_asset_theme.
    repeat case_match; repeat apply Htheme; done.
  - apply evidence_grows_refl.
Qed.

Lemma detect_custom_functionality_grows `{rt : PyRuntime} doc s :
  evidence_grows s (detect_custom_functionality doc s).
Proof.
  set (R := λ (_ s' : analyzer), evidence_grows s s').
  change (R (detect_custom_functionality doc s)
            (detect_custom_functionality doc s)).
  apply detect_custom_functionality_rel; unfold R; try solve_grows_step.
  apply evidence_grows_refl.
Qed.

Lemma loop_body_grows `{rt : PyRuntime} net st :
  loop_condition st = true →
  evidence_grows (self_of (proc st)) (self_of (proc (loop_body net st))).
Proof.
  intros Hc.
  destruct (loop_body_cases net st Hc)
    as (u & rest & soup & p & Hu & Hlt & Hf & Hb).
  assert (evidence_grows (self_of (proc st)) (self_of p)) as Hfetch.
  { destruct (fetch_page_effect _ _ _ _ _ Hf) as [[-> | ->] _];
      [apply evidence_grows_refl|].
    unfold evidence_grows. simpl. split_and!; (done || set_solver). }
  destruct soup as [page|]; [|by rewrite Hb].
  destruct Hb as (s' & links & Ha & ->). simpl.
  assert (s' = (analyze_page page u (pages_visited st + 1) (self_of p)).1)
    as -> by by rewrite Ha.
  rewrite analyze_page_self.
  eapply evidence_grows_trans; [exact Hfetch|].
  eapply evidence_grows_trans; [apply detect_plugins_from_html_grows|].
  apply detect_custom_functionality_grows.
Qed.

Lemma derive_themes_grows names s : evidence_grows s (derive_themes names s).
Proof.
  unfold derive_themes, evidence_grows.
  repeat case_match; simpl; by split_and!.
Qed.

(** No turn of the crawl loop, and no run of [analyze_site], removes
    anything from the visited set or from an evidence collection: each set
    keeps its members and the indicator list keeps its items, in place, at
    its beginning. *)
Theorem evidence_never_shrinks `{rt : PyRuntime} (net : network) :
  (∀ st,
     evidence_grows (self_of (proc st)) (self_of (proc (loop_turn net st))))
  ∧ (∀ self, evidence_grows self (analyze_site net self)).
Proof.
  split.
  - intros st. unfold loop_turn.
    destruct (loop_condition st) eqn:Hc;
      [by apply loop_body_grows|apply evidence_grows_refl].
  - intros self. unfold analyze_site. cbv zeta.
    eapply evidence_grows_trans; [|apply derive_themes_grows].
    apply (crawl_site_ind net self
             (λ st, evidence_grows self (self_of (proc st)))).
    + unfold start, normalize_base_url, evidence_grows. simpl.
      case_match; simpl; by split_and!.
    + intros st Hc H. eapply evidence_grows_trans; [exact H|].
      by apply loop_body_grows.
Qed.

(** ** What the crawl loop leaves alone *)

Lemma loop_body_fixed_fields `{rt : PyRuntime} net st :
  loop_condition st = true →
  (base_url (self_of (proc (loop_body net st))),
   max_pages (self_of (proc (loop_body net st))),
   verbose (self_of (proc (loop_body net st))),
   main_theme (self_of (proc (loop_body net st))),
   child_theme (self_of (proc (loop_body net st))))
  = (base_url (self_of (proc st)), max_pages (self_of (proc st)),
     verbose (self_of (proc st)), main_theme (self_of (proc st)),
     child_theme (self_of (proc st))).
Proof.
  intros Hc.
  destruct (loop_body_cases net st Hc)
    as (u & rest & soup & p & Hu & Hlt & Hf & Hb).
  set (F := λ s, (base_url s, max_pages s, verbose s, main_theme s,
                  child_theme s)).
  change (F (self_of (proc (loop_body net st))) = F (self_of (proc st))).
  assert (F (self_of p) = F (self_of (proc st))) as Hfetch
    by by destruct (fetch_page_effect _ _ _ _ _ Hf) as [[-> | ->] _].
  destruct soup as [page|]; [|by rewrite Hb].
  destruct Hb as (s' & links & Ha & ->). simpl.
  assert (s' = (analyze_page page u (pages_visited st + 1) (self_of p)).1)
    as -> by by rewrite Ha.
  rewrite analyze_page_self, <- Hfetch.
  rewrite (detect_custom_functionality_keeps F) by done.
  by apply detect_plugins_from_html_keeps.
Qed.

(** The crawl loop never assigns [main_theme] or [child_theme], nor the
    configuration: when the loop ends they are as [analyze_site] found them,
    the base URL with [https://] put in front when it had no scheme.  The
    two theme fields are set by the derivation after the loop only; when no
    theme evidence was collected they keep their values to the end. *)
Theorem theme_fields_set_after_crawl_only `{rt : PyRuntime}
    (net : network) (self : analyzer) :
  main_theme (self_of (proc (crawl_site net self))) = main_theme self
  ∧ child_theme (self_of (proc (crawl_site net self))) = child_theme self
  ∧ max_pages (analyze_site net self) = max_pages self
  ∧ verbose (analyze_site net self) = verbose self
  ∧ base_url (analyze_site net self)
    = (if Py.startswith (base_url self) "http://"
          || Py.startswith (base_url self) "https://"
       then base_url self else "https://" +:+ base_url self)
  ∧ (Py.startswith (base_url (analyze_site net self)) "http://"
     || Py.startswith (base_url (analyze_site net self)) "https://") = true
  ∧ (themes_detected (analyze_site net self) = ∅ →
     main_theme (analyze_site net self) = main_theme self
     ∧ child_theme (analyze_site net self) = child_theme self).
Proof.
  set (F := λ s, (base_url s, max_pages s, verbose s, main_theme s,
                  child_theme s)).
  assert (F (self_of (proc (crawl_site net self)))
          = F (normalize_base_url self)) as Hloop.
  { apply (crawl_site_ind net self
             (λ st, F (self_of (proc st)) = F (normalize_base_url self)));
      [done|].
    intros st Hc <-. by apply loop_body_fixed_fields. }
  assert (∀ names s,
            (base_url (derive_themes names s), max_pages (derive_themes names s),
             verbose (derive_themes names s),
             themes_detected (derive_themes names s))
            = (base_url s, max_pages s, verbose s, themes_detected s)) as Hd.
  { intros names s. unfold derive_themes. by repeat case_match. }
  set (s := self_of (proc (crawl_site net self))) in *.
  specialize (Hd (set_iter (themes_detected s)).*1 s).
  unfold analyze_site. cbv zeta. fold s.
  assert (base_url (normalize_base_url self)
          = (if Py.startswith (base_url self) "http://"
                || Py.startswith (base_url self) "https://"
             then base_url self else "https://" +:+ base_url self)
          ∧ max_pages (normalize_base_url self) = max_pages self
          ∧ verbose (normalize_base_url self) = verbose self
          ∧ main_theme (normalize_base_url self) = main_theme self
          ∧ child_theme (normalize_base_url self) = child_theme self)
    as (Hb & Hm & Hv & Hmt & Hct)
    by (unfold normalize_base_url; by case_match).
  unfold F in Hloop.
  injection Hloop as Hl1 Hl2 Hl3 Hl4 Hl5. injection Hd as Hd1 Hd2 Hd3 Hd4.
  split_and!; try congruence.
  - rewrite Hd1, Hl1, Hb.
    destruct (Py.startswith (base_url self) "http://"
              || Py.startswith (base_url self) "https://") eqn:Hs; [done|].
    apply orb_true_iff. right. by destruct (base_url self).
  - intros Hempty. rewrite Hd4 in Hempty.
    rewrite Hempty, set_iter_empty. simpl. split; congruence.
Qed.

Lemma theme_fields_set_after_crawl_only_witness :
  main_theme
    (analyze_site (rt := Sample.runtime) Sample.site_with_dead_links
       (init Sample.home 3 false)) = None
  ∧ child_theme
      (analyze_site (rt := Sample.runtime) Sample.site_with_dead_links
         (init Sample.home 3 false)) = None.
Proof.
  destruct (theme_fields_set_after_crawl_only (rt := Sample.runtime)
              Sample.site_with_dead_links (init Sample.home 3 false))
    as (_ & _ & _ & _ & _ & _ & H).
  apply H. by vm_compute.
Defined.

(** ** The visited set and the analyzed pages, read off the requests *)

(** The pages of the answers with status 200 and a body the parser
    accepted, among the requests of a log, in the order of the requests. *)
Definition pages_answered_200 (net : network) (log : list string)
  : list Bs4.soup :=
  omap (λ request : nat * string,
          match net request.1 request.2 with
          | HttpResponse status_code page =>
              if (status_code =? 200)%Z then Some page else None
          | HttpUnparsable | RequestError => None
          end)
       (imap (λ i url, (i, url)) log).

Lemma pages_answered_200_snoc net log url :
  pages_answered_200 net (log ++ [url])
  = pages_answered_200 net log
    ++ match net (length log) url with
       | HttpResponse status_code page =>
           if (status_code =? 200)%Z then [page] else []
       | HttpUnparsable | RequestError => []
       end.
Proof.
  unfold pages_answered_200. rewrite imap_app, omap_app. f_equal. simpl.
  rewrite Nat.add_0_r.
  destruct (net (length log) url) as [code page| |]; [|done..].
  by destruct (code =? 200)%Z.
Qed.

(** What one fetch does to the visited set, the log and the pages to
    analyze, in one statement. *)
Definition fetch_explained (net : network) (visited0 : gset string)
    (p : process) : Prop :=
  ∀ url,
    url ∈ visited_urls (self_of p)
    ↔ url ∈ visited0
      ∨ ∃ i, session_log p !! i = Some url ∧ net i url ≠ RequestError.

Lemma fetch_page_explained net visited0 url p soup p' :
  fetch_page net url p = (soup, p') →
  fetch_explained net visited0 p →
  fetch_explained net visited0 p'
  ∧ pages_answered_200 net (session_log p')
    = pages_answered_200 net (session_log p)
      ++ match soup with Some page => [page] | None => [] end.
Proof.
  intros Hf Hexp.
  destruct (decide (url ∈ visited_urls (self_of p))) as [Hin|Hin].
  { rewrite fetch_page_visited in Hf by done. injection Hf as <- <-.
    by rewrite app_nil_r. }
  rewrite fetch_page_fresh in Hf by done.
  assert (session_log p' = session_log p ++ [url]) as Hlog
    by (destruct (net _ url); by injection Hf as <- <-).
  assert ((net (length (session_log p)) url ≠ RequestError
           ∧ visited_urls (self_of p') = {[url]} ∪ visited_urls (self_of p))
          ∨ (net (length (session_log p)) url = RequestError
             ∧ visited_urls (self_of p') = visited_urls (self_of p)))
    as Hvisited.
  { destruct (net (length (session_log p)) url) as [code page| |];
      injection Hf as <- <-; simpl; [left|left|right]; done. }
  split.
  - intros u. rewrite Hlog.
    destruct Hvisited as [[Hn ->]|[Hn ->]].
    + rewrite elem_of_union, elem_of_singleton, (Hexp u). split.
      * intros [->|[?|(i & Hi & Hne)]]; [right|by left|right].
        -- exists (length (session_log p)).
           split; [by apply lookup_snoc_Some; right|done].
        -- exists i. split; [|done]. apply lookup_snoc_Some. left.
           split; [by eapply lookup_lt_Some|done].
      * intros [?|(i & [[Hi Hu]|[-> ->]]%lookup_snoc_Some & Hne)];
          [right; by left| |by left].
        right. right. by exists i.
    + rewrite (Hexp u). split.
      * intros [?|(i & Hi & Hne)]; [by left|right].
        exists i. split; [|done]. apply lookup_snoc_Some. left.
        split; [by eapply lookup_lt_Some|done].
      * intros [?|(i & [[Hi Hu]|[-> ->]]%lookup_snoc_Some & Hne)];
          [by left| |done].
        right. by exists i.
  - rewrite Hlog, pages_answered_200_snoc. f_equal.
    destruct (net (length (session_log p)) url) as [code page| |];
      [destruct (code =? 200)%Z| |]; by injection Hf as <- <-.
Qed.

Definition run_explained (net : network) (visited0 : gset string)
    (st : loop_state) : Prop :=
  fetch_explained net visited0 (proc st)
  ∧ analyzed st = pages_answered_200 net (session_log (proc st)).

Lemma loop_body_explained `{rt : PyRuntime} net visited0 st :
  loop_condition st = true →
  run_explained net visited0 st → run_explained net visited0 (loop_body net st).
Proof.
  intros Hc [Hexp Haz].
  destruct (loop_body_cases net st Hc)
    as (u & rest & soup & p & Hu & Hlt & Hf & Hb).
  destruct (fetch_page_explained _ _ _ _ _ _ Hf Hexp) as [Hexp' Hpages].
  destruct soup as [page|].
  - destruct Hb as (s' & links & Ha & ->).
    apply analyze_page_crawl_fields in Ha.
    assert (visited_urls s' = visited_urls (self_of p)) as Hvis
      by (unfold crawl_fields in Ha; congruence).
    split; simpl; [|by rewrite Hpages, Haz].
    intros url. simpl. rewrite Hvis. apply Hexp'.
  - rewrite Hb. split; simpl; [done|]. by rewrite Hpages, app_nil_r.
Qed.

(** When the crawl loop ends, the visited set holds what it held at the
    start and the URLs whose request was answered (with any status, and
    whether or not the parser accepted the body), and nothing else; and the
    pages that went through the detectors are the pages of the answers with
    status 200 whose body the parser accepted, in the order of the
    requests: an answer with status 200 and a body the parser rejects is
    not analyzed.  The visited set is not changed by the derivation after
    the loop. *)
Theorem visited_and_analyzed_follow_the_answers `{rt : PyRuntime}
    (net : network) (self : analyzer) :
  (∀ url,
     url ∈ visited_urls (analyze_site net self)
     ↔ url ∈ visited_urls self
       ∨ ∃ i, session_log (proc (crawl_site net self)) !! i = Some url
              ∧ net i url ≠ RequestError)
  ∧ analyzed (crawl_site net self)
    = pages_answered_200 net (session_log (proc (crawl_site net self))).
Proof.
  assert (run_explained net (visited_urls self) (crawl_site net self))
    as [Hexp Haz].
  { apply crawl_site_ind; [|apply loop_body_explained].
    split; [|done]. intros url. unfold start. simpl.
    assert (visited_urls (normalize_base_url self) = visited_urls self) as ->
      by (unfold normalize_base_url; by case_match).
    split; [by left|]. by intros [?|(i & [=] & _)]. }
  split; [|done]. intros url. unfold analyze_site. cbv zeta.
  rewrite derive_themes_visited_urls. apply Hexp.
Qed.

(** ** Edge cases of the crawl *)

(** With a page budget of zero or less the loop is not entered: no request
    is made and no page is analyzed.  [analyze_site] then only puts the
    scheme in front of the base URL and derives [main_theme] and
    [child_theme] from the theme evidence the analyzer already holds; every
    other field is left as it was, and with no theme evidence so are the
    two themes. *)
Theorem nonpositive_budget_crawls_nothing `{rt : PyRuntime}
    (net : network) (self : analyzer) :
  (max_pages self ≤ 0)%Z →
  session_log (proc (crawl_site net self)) = []
  ∧ analyzed (crawl_site net self) = []
  ∧ pages_visited (crawl_site net self) = 0%Z
  ∧ analyze_site net self
    = derive_themes (set_iter (themes_detected self)).*1
                    (normalize_base_url self)
  ∧ set_main_theme None (set_child_theme None (analyze_site net self))
    = set_main_theme None (set_child_theme None (normalize_base_url self))
  ∧ (themes_detected self = ∅ →
     analyze_site net self = normalize_base_url self).
Proof.
  intros HN.
  assert (crawl_site net self = start self) as Hstart.
  { unfold crawl_site. cbv zeta. unfold start. simpl. rewrite crawl_cons.
    simpl. rewrite normalize_base_url_max_pages.
    by rewrite (proj2 (Z.ltb_ge 0 (max_pages self))) by lia. }
  assert (themes_detected (normalize_base_url self) = themes_detected self)
    as Hthemes by (unfold normalize_base_url; by case_match).
  assert (analyze_site net self
          = derive_themes (set_iter (themes_detected self)).*1
                          (normalize_base_url self)) as Hsite.
  { unfold analyze_site. cbv zeta. rewrite Hstart. unfold start. simpl.
    by rewrite Hthemes. }
  rewrite Hstart. split_and!; [done..| |].
  - rewrite Hsite. unfold derive_themes. by repeat case_match.
  - intros Hempty. rewrite Hsite, Hempty, set_iter_empty. done.
Qed.

Lemma nonpositive_budget_crawls_nothing_witness :
  session_log
    (proc (crawl_site (rt := Sample.runtime) Sample.site_with_dead_links
             (init Sample.home 0 false))) = []
  ∧ analyze_site (rt := Sample.runtime) Sample.site_with_dead_links
      (init Sample.home 0 false)
    = init Sample.home 0 false.
Proof.
  destruct (nonpositive_budget_crawls_nothing (rt := Sample.runtime)
              Sample.site_with_dead_links (init Sample.home 0 false))
    as (Hlog & _ & _ & _ & _ & Hsame); [simpl; lia|].
  split; [exact Hlog|]. by rewrite Hsame.
Defined.

(** The start of a run with a positive budget: the homepage is fetched, and
    the run goes on from what the fetch returns. *)
Lemma crawl_site_first_fetch `{rt : PyRuntime} net self :
  (0 < max_pages self)%Z →
  crawl_site net self
  = match fetch_page net (base_url (normalize_base_url self))
            (mk_process (normalize_base_url self) []) with
    | (None, p) => mk_loop_state p 0 [] []
    | (Some soup, p) =>
        match Z.to_nat (max_pages self) with
        | O => mk_loop_state p 0 [] []
        | S budget' =>
            let '(self', new_links) :=
              analyze_page soup (base_url (normalize_base_url self)) 1
                           (self_of p) in
            crawl net budget' 1 [soup] (on_self (λ _, self') p) new_links
        end
    end.
Proof.
  intros HN. unfold crawl_site. cbv zeta. unfold start. simpl.
  rewrite crawl_cons. simpl. rewrite normalize_base_url_max_pages.
  rewrite (proj2 (Z.ltb_lt 0 (max_pages self))) by lia.
  destruct (fetch_page _ _ _) as [[soup|] p]; [done|]. by rewrite crawl_nil.
Qed.

(** When the homepage cannot be fetched (the request raises, or is answered
    with a status other than 200, or with a body the parser rejects) the
    crawl is that one request: nothing is analyzed, nothing is queued, and
    no evidence is collected. *)
Theorem failed_homepage_ends_crawl `{rt : PyRuntime}
    (net : network) (self : analyzer) :
  (0 < max_pages self)%Z →
  base_url (normalize_base_url self) ∉ visited_urls self →
  (∀ page, net 0%nat (base_url (normalize_base_url self))
           ≠ HttpResponse 200 page) →
  session_log (proc (crawl_site net self))
  = [base_url (normalize_base_url self)]
  ∧ analyzed (crawl_site net self) = []
  ∧ pages_visited (crawl_site net self) = 0%Z
  ∧ set_visited_urls ∅ (self_of (proc (crawl_site net self)))
    = set_visited_urls ∅ (normalize_base_url self).
Proof.
  intros HN Hfresh Hfail. rewrite crawl_site_first_fetch by done.
  rewrite fetch_page_fresh; simpl;
    [|by assert (visited_urls (normalize_base_url self) = visited_urls self)
         as -> by (unfold normalize_base_url; by case_match)].
  destruct (net 0%nat (base_url (normalize_base_url self)))
    as [code page| |] eqn:Hn; [|done..].
  destruct (code =? 200)%Z eqn:Hcode; [|done].
  apply Z.eqb_eq in Hcode as ->. by destruct (Hfail page).
Qed.

Lemma failed_homepage_ends_crawl_witness :
  session_log
    (proc (crawl_site (rt := Sample.runtime)
             (λ _ _, HttpResponse 503 []) (init Sample.home 3 false)))
  = [Sample.home].
Proof.
  apply (failed_homepage_ends_crawl (rt := Sample.runtime)
           (λ _ _, HttpResponse 503 []) (init Sample.home 3 false)).
  - simpl. lia.
  - simpl. apply not_elem_of_empty.
  - intros page. discriminate.
Defined.

(** ** Which URLs are requested *)

(** A URL of the site under [base]: it has the network location of [base]
    and an [http] or [https] scheme. *)
Definition on_site `{rt : PyRuntime} (base url : string) : Prop :=
  netloc url = netloc base
  ∧ (Py.startswith url "http://" || Py.startswith url "https://") = true.

Lemma list_slice_to_subseteq {A} (k : Z) (l : list A) :
  Py.list_slice_to k l ⊆ l.
Proof. unfold Py.list_slice_to. case_match; apply subseteq_take. Qed.

Lemma extract_links_on_site `{rt : PyRuntime} doc current_url self :
  Forall (on_site (base_url self)) (extract_links doc current_url self).
Proof.
  unfold extract_links.
  destruct (scan_anchors_spec current_url self
              (Bs4.find_all_with doc "a" "href") [])
    as (kept & _ & -> & Hall).
  simpl. apply Forall_fmap. eapply Forall_impl; [exact Hall|].
  intros href [Hskip _]. simpl. unfold skip_link in Hskip.
  apply orb_false_elim in Hskip as [[Hloc _]%orb_false_elim Hscheme].
  apply negb_false_iff in Hloc, Hscheme. split; [|done].
  by apply String.eqb_eq.
Qed.

Lemma analyze_page_links_on_site `{rt : PyRuntime} soup url pv s s' links :
  analyze_page soup url pv s = (s', links) →
  Forall (on_site (base_url s)) links.
Proof.
  unfold analyze_page. cbv zeta.
  set (s1 := detect_custom_functionality _ _).
  assert (base_url s1 = base_url s) as Hbase.
  { assert (crawl_fields s1 = crawl_fields s) as Hs1.
    { unfold s1. rewrite detect_custom_functionality_crawl_fields.
      apply detect_plugins_from_html_crawl_fields. }
    unfold crawl_fields in Hs1. congruence. }
  case_match; intros [= <- <-]; [|done]. rewrite <- Hbase.
  apply Forall_forall. intros u Hu%list_slice_to_subseteq. revert u Hu.
  apply Forall_forall, extract_links_on_site.
Qed.

(** The invariant of the loop: the base URL is fixed, and what was requested
    or waits in the queue is the homepage or a URL of the site. *)
Definition requests_on_site `{rt : PyRuntime} (base : string)
    (st : loop_state) : Prop :=
  base_url (self_of (proc st)) = base
  ∧ Forall (λ url, url = base ∨ on_site base url)
           (session_log (proc st) ++ urls_to_visit st).

Lemma loop_body_requests_on_site `{rt : PyRuntime} net base st :
  loop_condition st = true →
  requests_on_site base st → requests_on_site base (loop_body net st).
Proof.
  intros Hc [Hbase Hall].
  destruct (loop_body_cases net st Hc)
    as (u & rest & soup & p & Hu & Hlt & Hf & Hb).
  rewrite Hu in Hall.
  apply Forall_app in Hall as [Hlog [Hhead Hrest]%Forall_cons].
  destruct (fetch_page_effect _ _ _ _ _ Hf) as [Hself Hlog'].
  assert (base_url (self_of p) = base) as Hbase'
    by (destruct Hself as [-> | ->]; done).
  assert (Forall (λ url, url = base ∨ on_site base url) (session_log p))
    as Hlogp.
  { destruct Hlog' as [-> | ->]; [done|]. apply Forall_app. split; [done|].
    by constructor. }
  destruct soup as [page|].
  - destruct Hb as (s' & links & Ha & ->).
    pose proof (analyze_page_links_on_site _ _ _ _ _ _ Ha) as Hlinks.
    apply analyze_page_crawl_fields in Ha.
    split; simpl; [unfold crawl_fields in Ha; congruence|].
    rewrite Hbase' in Hlinks. rewrite !Forall_app. split_and!; [done..|].
    eapply Forall_impl; [exact Hlinks|]. by right.
  - rewrite Hb. split; simpl; [done|]. by apply Forall_app.
Qed.

Lemma normalize_base_url_scheme `{rt : PyRuntime} self :
  (Py.startswith (base_url (normalize_base_url self)) "http://"
   || Py.startswith (base_url (normalize_base_url self)) "https://") = true.
Proof.
  unfold normalize_base_url.
  destruct (Py.startswith (base_url self) "http://"
            || Py.startswith (base_url self) "https://") eqn:Hscheme;
    [done|].
  simpl. by destruct (base_url self).
Qed.

(** The crawl stays on the site: every URL handed to [session.get], and
    every URL left in the queue when the loop ends, has the network location
    of the base URL and an [http] or [https] scheme. *)
Theorem requests_stay_on_site `{rt : PyRuntime}
    (net : network) (self : analyzer) :
  Forall (on_site (base_url (analyze_site net self)))
         (session_log (proc (crawl_site net self))
          ++ urls_to_visit (crawl_site net self)).
Proof.
  assert (requests_on_site (base_url (normalize_base_url self))
                           (crawl_site net self)) as [Hbase Hall].
  { apply crawl_site_ind; [|apply loop_body_requests_on_site].
    split; simpl; [done|]. constructor; [by left|done]. }
  assert (base_url (analyze_site net self)
          = base_url (normalize_base_url self)) as ->.
  { rewrite <- Hbase. unfold analyze_site. cbv zeta.
    set (s := self_of _). unfold derive_themes.
    repeat case_match; done. }
  eapply Forall_impl; [exact Hall|].
  intros url [->|Hsite]; [|done].
  split; [done|apply normalize_base_url_scheme].
Qed.

(** What the log of requests satisfies at any point of a run that started
    with the visited set [visited0]: no URL of [visited0] is requested, and
    a URL is requested again only when its earlier requests raised. *)
Definition requests_fresh (net : network) (visited0 : gset string)
    (log : list string) : Prop :=
  (∀ i url, log !! i = Some url → url ∉ visited0)
  ∧ (∀ i j url, (i < j)%nat → log !! i = Some url → log !! j = Some url →
                net i url = RequestError).

Lemma fetch_page_requests_fresh net visited0 url p soup p' :
  fetch_page net url p = (soup, p') →
  fetch_explained net visited0 p →
  requests_fresh net visited0 (session_log p) →
  requests_fresh net visited0 (session_log p').
Proof.
  intros Hf Hexp [Hnew Hrep].
  destruct (decide (url ∈ visited_urls (self_of p))) as [Hin|Hin].
  { rewrite fetch_page_visited in Hf by done. by injection Hf as <- <-. }
  rewrite fetch_page_fresh in Hf by done.
  assert (session_log p' = session_log p ++ [url]) as ->
    by (destruct (net _ url); by injection Hf as <- <-).
  split.
  - intros i u [[Hi Hu]|[-> ->]]%lookup_snoc_Some; [by eapply Hnew|].
    intros Hv. apply Hin, Hexp. by left.
  - intros i j u Hij [[Hi Hu]|[Hi Hu]]%lookup_snoc_Some
                     [[Hj Hu']|[Hj Hu']]%lookup_snoc_Some; [| |lia..].
    + by apply (Hrep i j u).
    + destruct (net i u) as [code page| |] eqn:Hn; [| |done];
        destruct Hin; rewrite Hu'; apply Hexp; right; exists i;
        (split; [done|]); by rewrite Hn.
Qed.

Lemma loop_body_requests_fresh `{rt : PyRuntime} net visited0 st :
  loop_condition st = true →
  run_explained net visited0 st →
  requests_fresh net visited0 (session_log (proc st)) →
  requests_fresh net visited0 (session_log (proc (loop_body net st))).
Proof.
  intros Hc [Hexp _] Hfresh.
  destruct (loop_body_cases net st Hc)
    as (u & rest & soup & p & Hu & Hlt & Hf & Hb).
  pose proof (fetch_page_requests_fresh _ _ _ _ _ _ Hf Hexp Hfresh) as Hp.
  destruct soup as [page|]; [destruct Hb as (s' & links & Ha & ->)|];
    by rewrite ?Hb.
Qed.

(** No URL is fetched twice: a URL that was in the visited set before the
    run is never requested, and a URL is requested a second time only when
    each of its earlier requests raised (an answer, with any status, puts it
    in the visited set, and [fetch_page] then returns without a request). *)
Theorem answered_url_is_not_requested_again `{rt : PyRuntime}
    (net : network) (self : analyzer) :
  (∀ i url, session_log (proc (crawl_site net self)) !! i = Some url →
            url ∉ visited_urls self)
  ∧ (∀ i j url, (i < j)%nat →
       session_log (proc (crawl_site net self)) !! i = Some url →
       session_log (proc (crawl_site net self)) !! j = Some url →
       net i url = RequestError).
Proof.
  enough (run_explained net (visited_urls self) (crawl_site net self)
          ∧ requests_fresh net (visited_urls self)
              (session_log (proc (crawl_site net self)))) as [_ H] by done.
  apply crawl_site_ind.
  - split; [split; [|done]|by split].
    intros url. unfold start. simpl.
    assert (visited_urls (normalize_base_url self) = visited_urls self) as ->
      by (unfold normalize_base_url; by case_match).
    split; [by left|]. by intros [?|(i & [=] & _)].
  - intros st Hc [Hexp Hfresh].
    split; [by apply loop_body_explained|by apply loop_body_requests_fresh].
Qed.

(** ** The themes named by [analyze_site] *)

Lemma crawl_site_theme_fields `{rt : PyRuntime} net self :
  main_theme (self_of (proc (crawl_site net self))) = main_theme self
  ∧ child_theme (self_of (proc (crawl_site net self))) = child_theme self.
Proof.
  apply (crawl_site_ind net self
           (λ st, main_theme (self_of (proc st)) = main_theme self
                  ∧ child_theme (self_of (proc st)) = child_theme self)).
  - unfold start, normalize_base_url. simpl. by case_match.
  - intros st Hc [<- <-].
    pose proof (loop_body_fixed_fields net st Hc) as Hfix.
    by injection Hfix as _ _ _ -> ->.
Qed.

Lemma derive_themes_themes_detected names s :
  themes_detected (derive_themes names s) = themes_detected s.
Proof. unfold derive_themes. by repeat case_match. Qed.

(** What the statements after the loop choose from two or more names. *)
Lemma derive_themes_picks names s :
  (2 ≤ length names)%nat →
  ∃ m c,
    main_theme (derive_themes names s) = Some m
    ∧ child_theme (derive_themes names s) = Some c
    ∧ m ∈ names ∧ c ∈ names
    ∧ (∀ n, n ∈ names → Py.contains "-child" n = true →
         Py.contains "-child" c = true
         ∧ (Py.replace c "-child" "" ∈ names → m = Py.replace c "-child" "")
         ∧ (∀ n', n' ∈ names → Py.contains "-child" n' = false →
              Py.replace c "-child" "" ∈ names
              ∨ Py.contains "-child" m = false)).
Proof.
  destruct names as [|first [|second rest]]; [simpl; lia..|]. intros _.
  set (names := first :: second :: rest). unfold derive_themes. fold names.
  destruct (filter (λ name, Is_true (Py.contains "-child" name)) names)
    as [|child others] eqn:Hchildren.
  { exists first, second. simpl.
    split_and!; [done..|by left|by right; left|].
    intros n Hn Hc.
    assert (n ∈ filter (λ name, Is_true (Py.contains "-child" name)) names)
      as Hin by (apply list_elem_of_filter; by rewrite Hc).
    rewrite Hchildren in Hin. by apply elem_of_nil in Hin. }
  assert (child ∈ filter (λ name, Is_true (Py.contains "-child" name)) names)
    as [Hc Hin]%list_elem_of_filter by (rewrite Hchildren; by left).
  apply Is_true_true in Hc.
  case_bool_decide as Hparent.
  { exists (Py.replace child "-child" ""), child. simpl.
    split_and!; [done..|]. intros n Hn Hcn. split_and!; [done..|].
    intros n' _ _. by left. }
  destruct (filter (λ name, ¬ Is_true (Py.contains "-child" name)) names)
    as [|non_child more] eqn:Hothers.
  - exists first, child. simpl. split_and!; [done..|by left|done|].
    intros n Hn Hcn. split_and!; [done..|]. intros n' Hn' Hcn'.
    assert (n' ∈ filter (λ name, ¬ Is_true (Py.contains "-child" name)) names)
      as Hin'
      by (apply list_elem_of_filter; split; [rewrite Hcn'; by intros []|done]).
    rewrite Hothers in Hin'. by apply elem_of_nil in Hin'.
  - assert (non_child
            ∈ filter (λ name, ¬ Is_true (Py.contains "-child" name)) names)
      as [Hnc Hin']%list_elem_of_filter by (rewrite Hothers; by left).
    exists non_child, child. simpl. split_and!; [done..|].
    intros n Hn Hcn. split_and!; [done..|]. intros n' _ _. right.
    by destruct (Py.contains "-child" non_child).
Qed.

Lemma elem_of_theme_names `{rt : PyRuntime} (themes : gset (string * string))
    (name : string) :
  name ∈ (set_iter themes).*1 ↔ ∃ source, (name, source) ∈ themes.
Proof.
  rewrite list_elem_of_fmap. split.
  - intros ([n source] & -> & Hin%elem_of_set_iter). by exists source.
  - intros [source Hin]. exists (name, source).
    split; [done|]. by apply elem_of_set_iter.
Qed.

(** The themes [analyze_site] names are detected themes, whatever the order
    in which the set of theme evidence is iterated.  With no theme evidence
    [main_theme] and [child_theme] are left as they were; with one entry
    [main_theme] is its name and [child_theme] is left as it was; with two
    or more entries both are names of entries, and if some name contains
    "-child" then [child_theme] is such a name, [main_theme] is that name
    without "-child" when this is a detected name, and otherwise a name
    without "-child" when there is one. *)
Theorem derived_themes_are_detected `{rt : PyRuntime}
    (net : network) (self : analyzer) :
  let result := analyze_site net self in
  let detected := λ name, ∃ source, (name, source) ∈ themes_detected result in
  match size (themes_detected result) with
  | 0%nat =>
      main_theme result = main_theme self
      ∧ child_theme result = child_theme self
  | 1%nat =>
      (∃ m, main_theme result = Some m ∧ detected m)
      ∧ child_theme result = child_theme self
  | _ =>
      ∃ m c,
        main_theme result = Some m ∧ child_theme result = Some c
        ∧ detected m ∧ detected c
        ∧ (∀ n, detected n → Py.contains "-child" n = true →
             Py.contains "-child" c = true
             ∧ (detected (Py.replace c "-child" "") →
                m = Py.replace c "-child" "")
             ∧ (∀ n', detected n' → Py.contains "-child" n' = false →
                  detected (Py.replace c "-child" "")
                  ∨ Py.contains "-child" m = false))
  end.
Proof.
  intros result detected. unfold detected, result, analyze_site. cbv zeta.
  clear result detected.
  destruct (crawl_site_theme_fields net self) as [Hmain Hchild].
  set (s := self_of (proc (crawl_site net self))) in *.
  rewrite derive_themes_themes_detected.
  pose proof (set_iter_length (themes_detected s)) as Hlen.
  pose proof (elem_of_theme_names (themes_detected s)) as Hnames.
  rewrite <- Hlen, <- (length_fmap fst).
  destruct ((set_iter (themes_detected s)).*1) as [|first [|second rest]]
    eqn:Hl.
  - simpl. by rewrite Hmain, Hchild.
  - simpl. split; [|done]. exists first. split; [done|].
    apply Hnames. by left.
  - destruct (derive_themes_picks (first :: second :: rest) s)
      as (m & c & Hm & Hc & Hmin & Hcin & Hspec); [simpl; lia|].
    simpl length. exists m, c. split_and!; [done|done|by apply Hnames..|].
    intros n Hn%Hnames Hcn.
    destruct (Hspec n Hn Hcn) as (Hcc & Hparent & Hother).
    split_and!; [done| |].
    + intros Hp%Hnames. by apply Hparent.
    + intros n' Hn'%Hnames Hcn'.
      destruct (Hother n' Hn' Hcn') as [Hp|Hm']; [left|by right].
      by apply Hnames.
Qed.

(** A theme seen through assets at two or more URLs, and no other theme, is
    named as the main theme and as its own child theme: the names are
    counted per entry of the evidence set, which holds one entry for each
    asset URL. *)
Theorem theme_with_two_assets_is_its_own_child `{rt : PyRuntime}
    (net : network) (self : analyzer) (theme : string) :
  (2 ≤ size (themes_detected (analyze_site net self)))%nat →
  (∀ name source,
     (name, source) ∈ themes_detected (analyze_site net self) →
     name = theme) →
  main_theme (analyze_site net self) = Some theme
  ∧ child_theme (analyze_site net self) = Some theme.
Proof.
  unfold analyze_site. cbv zeta.
  set (s := self_of (proc (crawl_site net self))).
  rewrite derive_themes_themes_detected. intros Hsize Hall.
  pose proof (elem_of_theme_names (themes_detected s)) as Hnames.
  destruct (derive_themes_picks (set_iter (themes_detected s)).*1 s)
    as (m & c & -> & -> & Hmin & Hcin & _).
  { by rewrite length_fmap, set_iter_length. }
  apply Hnames in Hmin as [sm Hm], Hcin as [sc Hc].
  by rewrite (Hall _ _ Hm), (Hall _ _ Hc).
Qed.

(** A check that every entry of a list of evidence has the name [theme]. *)
Lemma all_named_by_check (theme : string) (entries : list (string * string)) :
  forallb (λ entry : string * string, String.eqb entry.1 theme) entries = true →
  ∀ name source, (name, source) ∈ entries → name = theme.
Proof.
  intros Hall name source Hin%list_elem_of_In.
  apply String.eqb_eq. apply (proj1 (forallb_forall _ _) Hall (name, source) Hin).
Qed.

(** A page with two assets of the theme [storefront]. *)
Definition two_asset_page : Bs4.soup :=
  [Bs4.Tag "html" None []
     [Bs4.Tag "head" None []
        [Bs4.Tag "script" None
           [("src", "https://shop.test/wp-content/themes/storefront/js/app.js")]
           [];
         Bs4.Tag "link" None
           [("rel", "stylesheet");
            ("href", "https://shop.test/wp-content/themes/storefront/style.css")]
           []]]].

Lemma theme_with_two_assets_is_its_own_child_witness :
  main_theme
    (analyze_site (rt := Sample.runtime) (λ _ _, HttpResponse 200 two_asset_page)
       (init Sample.home 1 false))
  = Some "storefront"
  ∧ child_theme
      (analyze_site (rt := Sample.runtime)
         (λ _ _, HttpResponse 200 two_asset_page) (init Sample.home 1 false))
    = Some "storefront".
Proof.
  apply (theme_with_two_assets_is_its_own_child (rt := Sample.runtime)
           (λ _ _, HttpResponse 200 two_asset_page)
           (init Sample.home 1 false) "storefront").
  - vm_compute. lia.
  - intros name source Hin%elem_of_elements. revert name source Hin.
    apply all_named_by_check. vm_compute. reflexivity.
Defined.
